(** * NYC TLC trip-record scraper: a shallow embedding of [scripts/nyc_scraper.py]

    The script scans a [base/year/month] directory tree for files that were
    already downloaded, plans one download per missing (year, month) of the
    requested category, runs the downloads through a worker pool and reports
    how many succeeded and how many failed.

    The embedding keeps the effects of the script explicit: the file system is
    a tree, the wall clock and the network are oracles carried by the world,
    and Python exceptions are the [Raise] outcome of a state-and-exception
    monad.

    - A path is the list of its components, so that [os.path.join] appends a
      component.  This is what the script's joins do as long as no name has a
      separator in it, which holds for the names [os.listdir] returns, for
      [str(year)] and for the zero-padded month, and for the file name when
      the category has none.
    - [datetime.now()] is read from the world each time the script calls it:
      once for the current year and once for every month of the current
      year.  Statements about "the current month" assume that all readings
      agree ([clock_at]).
    - A download is one step on the world.  The pool runs the tasks in the
      order of submission and hands the futures to the counting loop in an
      order that the world decides, so that the loop is checked against every
      completion order; how many downloads overlap in time is outside the
      embedding.
    - Permission errors, symbolic links and interrupts are not part of the
      world. *)

From Stdlib Require Import ZArith Lia Permutation Ascii String.
From stdpp Require Import base gmap sets list strings pretty fin_maps sorting.

#[local] Set Warnings "-register-all,-clear-no-such-hyp".
#[local] Open Scope Z_scope.

(** ** Python built-ins used by the script *)

Module Py.

(** [s.endswith(suffix)] *)
Fixpoint startswith (s pre : string) : bool :=
  match pre, s with
  | EmptyString, _ => true
  | String b pre', String a s' => if decide (a = b) then startswith s' pre' else false
  | String _ _, EmptyString => false
  end.

Definition endswith (s suffix : string) : bool :=
  startswith (String.rev s) (String.rev suffix).

(** [s.split(sep)] for a one-character separator: the list is never empty. *)
Fixpoint split (sep : Ascii.ascii) (s : string) : list string :=
  match s with
  | EmptyString => [EmptyString]
  | String a s' =>
      if decide (a = sep) then EmptyString :: split sep s'
      else match split sep s' with
           | h :: t => String a h :: t
           | [] => [String a EmptyString]
           end
  end.

(** [str(n)] for an integer. *)
Definition str (n : Z) : string := pretty n.

Fixpoint zeros (n : nat) : string :=
  match n with O => EmptyString | S n' => String "0"%char (zeros n') end.

(** [s.zfill(width)]: pads with zeros on the left, after a leading sign. *)
Definition zfill (s : string) (width : nat) : string :=
  let fill := zeros (width - String.length s) in
  match s with
  | String "+"%char rest => String "+"%char (fill +:+ rest)
  | String "-"%char rest => String "-"%char (fill +:+ rest)
  | _ => fill +:+ s
  end.

(** [int(s)] on a [str]: surrounding white space is stripped, one sign is
    allowed, and single underscores may separate digits.  [None] stands for
    [ValueError].  Only ASCII digits and ASCII white space are covered. *)
Definition is_space (a : Ascii.ascii) : bool :=
  match a with
  | "009" | "010" | "011" | "012" | "013"
  | "028" | "029" | "030" | "031" | " " => true
  | _ => false
  end%char.

Fixpoint lstrip (s : string) : string :=
  match s with
  | String a s' => if is_space a then lstrip s' else s
  | EmptyString => EmptyString
  end.

Definition strip (s : string) : string :=
  String.rev (lstrip (String.rev (lstrip s))).

Fixpoint digits (acc : Z) (after_digit : bool) (s : string) : option Z :=
  match s with
  | EmptyString => if after_digit then Some acc else None
  | String a s' =>
      match Ascii.is_nat a with
      | Some d => digits (10 * acc + Z.of_nat d) true s'
      | None =>
          if decide (a = "_"%char) then
            if after_digit then digits acc false s' else None
          else None
      end
  end.

Definition int (s : string) : option Z :=
  match strip s with
  | String "-"%char r => Z.opp <$> digits 0 false r
  | String "+"%char r => digits 0 false r
  | t => digits 0 false t
  end.

End Py.

(** ** Exceptions and outcomes *)

Inductive exn :=
  | FileExistsError
  | FileNotFoundError
  | NotADirectoryError
  | IsADirectoryError
  | OSError
  | ValueError
  | ConnectionError
  | HTTPError
  | ChunkedEncodingError.

#[global] Instance exn_eq_dec : EqDecision exn.
Proof. solve_decision. Defined.

Inductive result (A : Type) :=
  | Return (a : A)
  | Raise (e : exn).
Arguments Return {A} a.
Arguments Raise {A} e.

(** ** The file system

    A path is the list of its components ([os.path.join p name] appends one
    component), resolved from the working directory.  A directory maps entry
    names to nodes, so that [os.listdir] has no duplicates and no order of its
    own. *)

Definition path := list string.

Inductive node :=
  | File (data : list Byte.byte)
  | Dir (entries : gmap string node).

Module Fs.

Fixpoint node_at (n : node) (p : path) : option node :=
  match p with
  | [] => Some n
  | x :: p' =>
      match n with
      | Dir es => match es !! x with Some c => node_at c p' | None => None end
      | File _ => None
      end
  end.

(** What sits at a path: nothing, a file or a directory. *)
Inductive kind := IsFile | IsDir.

Definition kind_of (n : node) : kind :=
  match n with File _ => IsFile | Dir _ => IsDir end.

Definition kind_at (o : option node) (p : path) : option kind :=
  match o with
  | Some n => kind_of <$> node_at n p
  | None => None
  end.

Definition exists_ (root : node) (p : path) : bool :=
  match node_at root p with Some _ => true | None => false end.

Definition isdir (root : node) (p : path) : bool :=
  match node_at root p with Some (Dir _) => true | _ => false end.

Definition isfile (root : node) (p : path) : bool :=
  match node_at root p with Some (File _) => true | _ => false end.

Definition listdir (root : node) (p : path) : result (list string) :=
  match node_at root p with
  | Some (Dir es) => Return (map fst (map_to_list es))
  | Some (File _) => Raise NotADirectoryError
  | None => Raise FileNotFoundError
  end.

(** [os.makedirs(p)]: creates the leaf and every missing ancestor; the leaf
    must not exist, and no ancestor may be a file. *)
Fixpoint makedirs (n : option node) (p : path) : result node :=
  match p with
  | [] =>
      match n with
      | None => Return (Dir ∅)
      | Some _ => Raise FileExistsError
      end
  | x :: p' =>
      match n with
      | None =>
          match makedirs None p' with
          | Return c => Return (Dir {[ x := c ]})
          | Raise e => Raise e
          end
      | Some (Dir es) =>
          match makedirs (es !! x) p' with
          | Return c => Return (Dir (<[ x := c ]> es))
          | Raise e => Raise e
          end
      | Some (File _) => Raise NotADirectoryError
      end
  end.

(** An update of the entry at [p], whose parent must be a directory:
    [f] maps the old entry (if any) to the new one (if any). *)
Fixpoint update (f : option node → result (option node))
    (n : option node) (p : path) : result (option node) :=
  match p with
  | [] => f n
  | x :: p' =>
      match n with
      | Some (Dir es) =>
          match update f (es !! x) p' with
          | Return c => Return (Some (Dir (partial_alter (λ _, c) x es)))
          | Raise e => Raise e
          end
      | Some (File _) => Raise NotADirectoryError
      | None => Raise FileNotFoundError
      end
  end.

(** [open(p, 'wb')]: creates the file or truncates it. *)
Definition truncate (n : option node) : result (option node) :=
  match n with
  | Some (Dir _) => Raise IsADirectoryError
  | _ => Return (Some (File []))
  end.

(** [f.write(chunk)] on the file opened at [p]. *)
Definition append (chunk : list Byte.byte) (n : option node) : result (option node) :=
  match n with
  | Some (File d) => Return (Some (File (d ++ chunk)))
  | _ => Raise OSError
  end.

(** [os.remove(p)]: removes a file, never a directory. *)
Definition unlink (n : option node) : result (option node) :=
  match n with
  | Some (File _) => Return None
  | Some (Dir _) => Raise IsADirectoryError
  | None => Raise FileNotFoundError
  end.

End Fs.

(** ** The world the script runs in *)

(** [datetime.now()]: only the fields the script reads. *)
Record datetime := DateTime { dt_year : Z; dt_month : Z }.

(** What the server does with one request: [requests.get] raises, or it
    returns a response with a status code whose body is a list of chunks; the
    stream may break after the last chunk listed ([complete = false]). *)
Inductive response :=
  | Unreachable
  | Response (status_code : Z) (body : list (list Byte.byte)) (complete : bool).

Record world := World {
  w_fs : node;                        (* the tree below the working directory *)
  w_clock : nat → datetime;           (* the n-th reading of the clock *)
  w_tick : nat;                       (* readings taken so far *)
  w_net : string → response;          (* the server, per URL *)
  w_write_limit : path → option nat;  (* chunk writes a file accepts before an I/O error *)
  w_finish : string → nat;            (* rank of a download's completion, per URL *)
  w_stdout : list string              (* lines printed so far *)
}.

Definition set_fs (n : node) (w : world) : world :=
  World n (w_clock w) (w_tick w) (w_net w) (w_write_limit w) (w_finish w) (w_stdout w).

Definition set_tick (k : nat) (w : world) : world :=
  World (w_fs w) (w_clock w) k (w_net w) (w_write_limit w) (w_finish w) (w_stdout w).

Definition set_stdout (out : list string) (w : world) : world :=
  World (w_fs w) (w_clock w) (w_tick w) (w_net w) (w_write_limit w) (w_finish w) out.

(** ** State and exceptions *)

Definition M (A : Type) : Type := world → result A * world.

#[global] Instance M_ret : MRet M := λ A a w, (Return a, w).

#[global] Instance M_bind : MBind M := λ A B f m w,
  match m w with
  | (Return a, w') => f a w'
  | (Raise e, w') => (Raise e, w')
  end.

Definition raise {A} (e : exn) : M A := λ w, (Raise e, w).

(** [try: body  except Exception as e: handler]; every member of [exn] is an
    [Exception]. *)
Definition try_except {A} (body : M A) (handler : exn → M A) : M A := λ w,
  match body w with
  | (Return a, w') => (Return a, w')
  | (Raise e, w') => handler e w'
  end.

(** [try: body  except ValueError: handler] *)
Definition try_except_ValueError {A} (body : M A) (handler : M A) : M A := λ w,
  match body w with
  | (Raise ValueError, w') => handler w'
  | r => r
  end.

(** [for x in l: s = body x s] *)
Fixpoint for_in {A S} (l : list A) (body : A → S → M S) (s : S) : M S :=
  match l with
  | [] => mret s
  | x :: l' => s' ← body x s; for_in l' body s'
  end.

(** ** Library calls *)

Definition os_path_join (p : path) (name : string) : path := p ++ [name].

Definition os_path_exists (p : path) : M bool := λ w,
  (Return (Fs.exists_ (w_fs w) p), w).

Definition os_path_isdir (p : path) : M bool := λ w,
  (Return (Fs.isdir (w_fs w) p), w).

Definition os_listdir (p : path) : M (list string) := λ w,
  (Fs.listdir (w_fs w) p, w).

Definition os_makedirs (p : path) : M unit := λ w,
  match Fs.makedirs (Some (w_fs w)) p with
  | Return n => (Return tt, set_fs n w)
  | Raise e => (Raise e, w)
  end.

Definition fs_update (f : option node → result (option node)) (p : path) : M unit := λ w,
  match Fs.update f (Some (w_fs w)) p with
  | Return (Some n) => (Return tt, set_fs n w)
  | Return None => (Raise OSError, w)
  | Raise e => (Raise e, w)
  end.

Definition open_wb (p : path) : M unit := fs_update Fs.truncate p.

Definition os_remove (p : path) : M unit := fs_update Fs.unlink p.

(** The [k]-th [f.write(chunk)] on the file opened at [p]. *)
Definition f_write (p : path) (k : nat) (chunk : list Byte.byte) : M unit := λ w,
  match w_write_limit w p with
  | Some limit => if decide (limit ≤ k)%nat then (Raise OSError, w)
                  else fs_update (Fs.append chunk) p w
  | None => fs_update (Fs.append chunk) p w
  end.

Definition datetime_now : M datetime := λ w,
  (Return (w_clock w (w_tick w)), set_tick (S (w_tick w)) w).

Definition requests_get (url : string) : M response := λ w,
  match w_net w url with
  | Unreachable => (Raise ConnectionError, w)
  | r => (Return r, w)
  end.

(** [response.raise_for_status()]: 4xx and 5xx raise. *)
Definition raise_for_status (r : response) : M unit :=
  match r with
  | Response code _ _ =>
      if decide (400 ≤ code < 600) then raise HTTPError else mret tt
  | Unreachable => raise ConnectionError
  end.

Definition print (line : string) : M unit := λ w,
  (Return tt, set_stdout (w_stdout w ++ [line]) w).

Definition int (s : string) : M Z :=
  match Py.int s with
  | Some n => mret n
  | None => raise ValueError
  end.

Definition range (a b : Z) : list Z := seqZ a (b - a).

(** ** The script *)

(** A record of the existing set: (data_type, year, month). *)
Definition record : Type := string * Z * Z.

(** A download task: (url, output_path). *)
Definition task : Type := string * path.

(** The innermost loop of [get_existing_downloads]: the files of one month
    directory. *)
Definition scan_file (year month : Z) (file : string) (existing : gset record)
    : M (gset record) :=
  if Py.endswith file ".parquet" then
    let data_type := hd EmptyString (Py.split "_" file) in
    mret ({[ (data_type, year, month) ]} ∪ existing)
  else mret existing.

(** The bodies of the two outer loops.  In each [try] block [int] comes
    first and is the only statement that raises [ValueError], so the handler
    finds the set as it was on entry. *)
Definition scan_month (year : Z) (year_path : path) (month_dir : string)
    (existing : gset record) : M (gset record) :=
  let month_path := os_path_join year_path month_dir in
  d ← os_path_isdir month_path;
  if negb d then mret existing else
  try_except_ValueError
    (month ← int month_dir;
     files ← os_listdir month_path;
     for_in files (scan_file year month) existing)
    (mret existing).

Definition scan_year (base_path : path) (year_dir : string)
    (existing : gset record) : M (gset record) :=
  let year_path := os_path_join base_path year_dir in
  d ← os_path_isdir year_path;
  if negb d then mret existing else
  try_except_ValueError
    (year ← int year_dir;
     month_dirs ← os_listdir year_path;
     for_in month_dirs (scan_month year year_path) existing)
    (mret existing).

Definition get_existing_downloads (base_path : path) : M (gset record) :=
  let existing : gset record := ∅ in
  e ← os_path_exists base_path;
  if negb e then mret existing else
  year_dirs ← os_listdir base_path;
  for_in year_dirs (scan_year base_path) existing.

Definition create_directory_structure (base_path : path) : M unit :=
  e ← os_path_exists base_path;
  if negb e then os_makedirs base_path else mret tt.

(** The body of the [with open(...)] block: one [f.write] per non-empty
    chunk, then the end of the stream. *)
Definition write_chunk (output_path : path) (chunk : list Byte.byte) (written : nat)
    : M nat :=
  match chunk with
  | [] => mret written
  | _ => f_write output_path written chunk;; mret (S written)
  end.

Definition iter_content (r : response) (body : list Byte.byte → nat → M nat) : M unit :=
  match r with
  | Response _ chunks complete =>
      for_in chunks body 0%nat;;
      if complete then mret tt else raise ChunkedEncodingError
  | Unreachable => raise ConnectionError
  end.

Definition download_file (url : string) (output_path : path) : M (path * bool) :=
  try_except
    (response ← requests_get url;
     raise_for_status response;;
     open_wb output_path;;
     iter_content response (write_chunk output_path);;
     mret (output_path, true))
    (λ e,
     ex ← os_path_exists output_path;
     (if (ex : bool) then os_remove output_path else mret tt);;
     mret (output_path, false)).

Definition download_worker (args : task) : M (path * bool) :=
  let '(url, output_path) := args in
  download_file url output_path.

Definition base_url : string := "https://d37ci6vzurychx.cloudfront.net/trip-data".
Definition base_path : path := ["data"; "taxi_data"]%string.

Definition month_str (month : Z) : string := Py.zfill (Py.str month) 2.

Definition file_name (data_type : string) (year month : Z) : string :=
  data_type +:+ "_tripdata_" +:+ Py.str year +:+ "-" +:+ month_str month +:+ ".parquet".

Definition year_path (year : Z) : path := os_path_join base_path (Py.str year).

Definition month_path (year month : Z) : path :=
  os_path_join (year_path year) (month_str month).

(** The task appended for one (year, month). *)
Definition task_for (data_type : string) (year month : Z) : task :=
  (base_url +:+ "/" +:+ file_name data_type year month,
   os_path_join (month_path year month) (file_name data_type year month)).

(** The body of [for month in range(1, 13)]. *)
Definition plan_month (data_type : string) (existing_downloads : gset record)
    (current_year year : Z) (month : Z) (download_tasks : list task) : M (list task) :=
  future ← (if decide (year = current_year)
            then now ← datetime_now; mret (bool_decide (month > dt_month now))
            else mret false);
  if (future : bool) then mret download_tasks else
  if decide ((data_type, year, month) ∈ existing_downloads) then mret download_tasks else
  create_directory_structure (month_path year month);;
  mret (download_tasks ++ [task_for data_type year month]).

(** The body of [for year in range(start_year, end_year + 1)]. *)
Definition plan_year (data_type : string) (existing_downloads : gset record)
    (current_year : Z) (year : Z) (download_tasks : list task) : M (list task) :=
  create_directory_structure (year_path year);;
  for_in (range 1 13) (plan_month data_type existing_downloads current_year year)
    download_tasks.

(** Lines 100-124: the clock is read, the end year clamped and the tasks
    prepared. *)
Definition prepare_download_tasks (start_year end_year : Z) (data_type : string)
    (existing_downloads : gset record) : M (list task) :=
  now ← datetime_now;
  let current_year := dt_year now in
  let end_year := Z.min end_year current_year in
  for_in (range start_year (end_year + 1))
    (plan_year data_type existing_downloads current_year) [].

(** A future of the pool: the task it was submitted for and the outcome of
    [download_worker], which is a value or the exception the worker raised. *)
Definition future : Type := task * result (path * bool).

(** [ThreadPoolExecutor(max_workers=...)] refuses a pool without workers. *)
Definition thread_pool_executor (max_workers : Z) : M unit :=
  if decide (max_workers ≤ 0) then raise ValueError else mret tt.

(** [executor.submit(download_worker, task)].  Each worker runs its task to
    the end, whatever happens to the others, and an exception stays in the
    future.  The tasks are taken as atomic steps on the world, in the order of
    submission. *)
Definition submit (t : task) (futures : list future) : M (list future) := λ w,
  let '(r, w') := download_worker t w in
  (Return (futures ++ [(t, r)]), w').

(** [as_completed(future_to_url)]: the futures in the order in which they
    finish, which the world decides. *)
Definition finishes_before (w : world) (f g : future) : Prop :=
  (w_finish w f.1.1 ≤ w_finish w g.1.1)%nat.

#[global] Instance finishes_before_dec w : RelDecision (finishes_before w).
Proof. intros f g. unfold finishes_before. apply _. Defined.

Definition as_completed (futures : list future) : M (list future) := λ w,
  (Return (merge_sort (finishes_before w) futures), w).

(** [future.result()]: the worker's value, or its exception raised again. *)
Definition future_result (f : future) : M (path * bool) := λ w, (f.2, w).

(** The body of [for future in as_completed(future_to_url)]. *)
Definition tally (f : future) (counts : Z * Z) : M (Z * Z) :=
  let '(successful, failed) := counts in
  r ← future_result f;
  let '(output_path, success) := r in
  if (success : bool) then mret (successful + 1, failed)
  else mret (successful, failed + 1).

(** Lines 131-152: the pool and the counting loop. *)
Definition run_downloads (max_workers : Z) (download_tasks : list task) : M (Z * Z) :=
  thread_pool_executor max_workers;;
  future_to_url ← for_in download_tasks submit [];
  completed ← as_completed future_to_url;
  for_in completed tally (0, 0).

Definition newline : string := String "010"%char EmptyString.

Definition scrape_taxi_data (start_year end_year : Z) (data_type : string)
    (max_workers : Z) : M unit :=
  create_directory_structure base_path;;
  existing_downloads ← get_existing_downloads base_path;
  download_tasks ← prepare_download_tasks start_year end_year data_type existing_downloads;
  match download_tasks with
  | [] =>
      print ("All " +:+ data_type +:+
             " taxi data files for the specified period already exist.")
  | _ =>
      print ("Found " +:+ Py.str (Z.of_nat (length download_tasks)) +:+
             " files to download");;
      counts ← run_downloads max_workers download_tasks;
      let '(successful, failed) := counts in
      print (newline +:+ "Download complete:");;
      print ("Successfully downloaded: " +:+ Py.str successful);;
      print ("Failed downloads: " +:+ Py.str failed)
  end.

(** * Specification vocabulary *)

(** A finished download that produced its pair, as the future it is read from. *)
Definition finished (d : task * (path * bool)) : future := (d.1, Return d.2).

Definition count_flag (b : bool) (outs : list (task * (path * bool))) : Z :=
  Z.of_nat (length (filter (λ d, d.2.2 = b) outs)).

(** The clock does not advance: every reading is [now]. *)
Definition clock_at (now : datetime) (w : world) : Prop :=
  ∀ n, w_clock w n = now.

(** The months the planner keeps, as a specification of the two loops. *)
Definition wanted (data_type : string) (existing : gset record) (now : datetime)
    (year month : Z) : Prop :=
  ¬ (year = dt_year now ∧ month > dt_month now) ∧ (data_type, year, month) ∉ existing.

#[global] Instance wanted_dec data_type existing now year month :
  Decision (wanted data_type existing now year month).
Proof. unfold wanted. apply _. Defined.

Definition planned_months (data_type : string) (existing : gset record)
    (now : datetime) (year : Z) : list Z :=
  filter (wanted data_type existing now year) (range 1 13).

Definition planned (data_type : string) (existing : gset record) (now : datetime)
    (start_year end_year : Z) : list (Z * Z) :=
  year ← range start_year (Z.min end_year (dt_year now) + 1);
  (λ month, (year, month)) <$> planned_months data_type existing now year.

Definition task_of (data_type : string) (ym : Z * Z) : task :=
  task_for data_type ym.1 ym.2.

(** All the (year, month) pairs the loops visit. *)
Definition grid (years : list Z) : list (Z * Z) :=
  year ← years; (λ month, (year, month)) <$> range 1 13.

(** The directories the planner may have made: a path is [made] when it is
    the directory of a visited year or of a planned (year, month), or an
    ancestor of one. *)
Definition made (years : list Z) (pairs : list (Z * Z)) (q : path) : Prop :=
  Exists (λ year, q `prefix_of` year_path year) years
  ∨ Exists (λ ym, q `prefix_of` month_path ym.1 ym.2) pairs.

#[global] Instance made_dec years pairs q : Decision (made years pairs q).
Proof. unfold made. apply _. Defined.

(** What sits at a path after "create if missing": what was there, or a new
    directory. *)
Definition kind_after (before : option Fs.kind) (created : bool) : option Fs.kind :=
  match before with
  | Some k => Some k
  | None => if created then Some Fs.IsDir else None
  end.

(** The records the scanner adds, level by level. *)
Definition names (root : node) (p : path) : list string :=
  match Fs.listdir root p with
  | Return l => l
  | Raise _ => []
  end.

Definition category_of (file : string) : string := hd EmptyString (Py.split "_" file).

Definition file_records (year month : Z) (file : string) : gset record :=
  if Py.endswith file ".parquet" then {[ (category_of file, year, month) ]} else ∅.

Definition month_records (root : node) (year : Z) (year_path : path)
    (month_dir : string) : gset record :=
  if Fs.isdir root (year_path ++ [month_dir]) then
    match Py.int month_dir with
    | Some month =>
        ⋃ (file_records year month <$> names root (year_path ++ [month_dir]))
    | None => ∅
    end
  else ∅.

Definition year_records (root : node) (base_path : path) (year_dir : string)
    : gset record :=
  if Fs.isdir root (base_path ++ [year_dir]) then
    match Py.int year_dir with
    | Some year =>
        ⋃ (month_records root year (base_path ++ [year_dir])
             <$> names root (base_path ++ [year_dir]))
    | None => ∅
    end
  else ∅.

Definition scan (root : node) (base_path : path) : gset record :=
  ⋃ (year_records root base_path <$> names root base_path).

(** A data file that is on disk, with what the scanner reads off its place. *)
Definition on_disk (root : node) (base_path : path) (r : record) : Prop :=
  ∃ year_dir month_dir file,
    Fs.isdir root (base_path ++ [year_dir]) = true ∧
    Py.int year_dir = Some r.1.2 ∧
    Fs.isdir root (base_path ++ [year_dir; month_dir]) = true ∧
    Py.int month_dir = Some r.2 ∧
    Fs.exists_ root (base_path ++ [year_dir; month_dir; file]) = true ∧
    Py.endswith file ".parquet" = true ∧
    r.1.1 = category_of file.

(** ** A run, observed

    The script prints only counts.  [observe_run] is the same run up to the
    end of the pool, returning what the run computed on the way: the existing
    set, the tasks and the futures. *)
Definition observe_run (start_year end_year : Z) (data_type : string)
    (max_workers : Z) : M (gset record * list task * list future) :=
  create_directory_structure base_path;;
  existing_downloads ← get_existing_downloads base_path;
  download_tasks ← prepare_download_tasks start_year end_year data_type existing_downloads;
  match download_tasks with
  | [] => mret (existing_downloads, download_tasks, [])
  | _ =>
      print ("Found " +:+ Py.str (Z.of_nat (length download_tasks)) +:+
             " files to download");;
      thread_pool_executor max_workers;;
      futures ← for_in download_tasks submit [];
      mret (existing_downloads, download_tasks, futures)
  end.

(** The (year, month) pairs of the requested range that are not in the future
    of [now]. *)
Definition in_grid (start_year end_year : Z) (now : datetime) (year month : Z) : Prop :=
  start_year ≤ year ≤ end_year ∧ 1 ≤ month ≤ 12 ∧
  ¬ (year > dt_year now ∨ (year = dt_year now ∧ month > dt_month now)).

(** The download of (year, month) ended with the given flag. *)
Definition ended (success : bool) (futures : list future) (data_type : string)
    (year month : Z) : Prop :=
  (task_for data_type year month,
   Return ((task_for data_type year month).2, success)) ∈ futures.

(** The future holds a value, not an exception. *)
Definition returned (f : future) : Prop := ∃ v, f.2 = Return v.

(** The union of the existing set and the successful downloads is the grid
    without its future months. *)
Definition union_is_grid (start_year end_year : Z) (data_type : string)
    (now : datetime) (existing : gset record) (futures : list future) : Prop :=
  ∀ r : record,
    (r ∈ existing ∨
     ∃ year month, r = (data_type, year, month) ∧ ended true futures data_type year month)
    ↔ (∃ year month, r = (data_type, year, month) ∧
                     in_grid start_year end_year now year month).

(** ** Worlds to run the script in *)

Definition march_2023 : datetime := DateTime 2023 3.

Definition server_up : string → response :=
  λ _, Response 200 [[Byte.x50]; []; [Byte.x41; Byte.x52]] true.

Definition server_down : string → response := λ _, Unreachable.

Definition world_of (root : node) (net : string → response) : world :=
  World root (λ _, march_2023) 0 net (λ _, None) (λ _, 0%nat) [].

(** A server that has every file but the one of February 2023. *)
Definition server_without_february : string → response :=
  λ url,
    if decide (url = base_url +:+ "/yellow_tripdata_2023-02.parquet")
    then Response 404 [] true
    else server_up url.

(** A disk with one data file, stored under a year and a month that are not
    the ones in its name. *)
Definition misfiled_disk : node :=
  Dir {[ "data" := Dir {[ "taxi_data" := Dir {[
    "2021" := Dir {[ "05" := Dir {[
      "yellow_tripdata_2020-01.parquet" := File [] ]} ]} ;
    "notes" := Dir ∅ ]} ]} ]}.

(** A disk on which January 2023 is already there. *)
Definition january_disk : node :=
  Dir {[ "data" := Dir {[ "taxi_data" := Dir {[
    "2023" := Dir {[ "01" := Dir {[
      "yellow_tripdata_2023-01.parquet" := File [] ]} ]} ]} ]} ]}.

(** A disk that holds the base directory and nothing else. *)
Definition base_disk : node :=
  Dir {[ "data" := Dir {[ "taxi_data" := Dir ∅ ]} ]}.

(** The first three months of 2023, as records of the yellow category. *)
Definition first_quarter : gset record :=
  {[ ("yellow", 2023, 1); ("yellow", 2023, 2); ("yellow", 2023, 3) ]}.


(** A disk on which a directory has the name of the January 2023 file of a
    category whose own name has an underscore. *)
Definition underscore_disk : node :=
  Dir {[ "data" := Dir {[ "taxi_data" := Dir {[
    "2023" := Dir {[ "01" := Dir {[
      "yellow_v2_tripdata_2023-01.parquet" := Dir ∅ ]} ]} ]} ]} ]}.

(** ** What a path holds

    An entry is what can be seen of a node from outside: a directory, or a
    file with its bytes. *)
Definition entry : Type := option (list Byte.byte).

Definition entry_of (n : node) : entry :=
  match n with File d => Some d | Dir _ => None end.

Definition entry_at (o : option node) (q : path) : option entry :=
  match o with
  | Some n => entry_of <$> Fs.node_at n q
  | None => None
  end.

(** The bytes of the file at [p], if a file is there. *)
Definition read_file (root : node) (p : path) : option (list Byte.byte) :=
  match Fs.node_at root p with
  | Some (File d) => Some d
  | _ => None
  end.

(** Two worlds that differ at most in their disks. *)
Definition same_but_disk (w w' : world) : Prop := w' = set_fs (w_fs w') w.

(** Two worlds that differ at most in their disks, and there at most at [p]. *)
Definition touches_only (p : path) (w w' : world) : Prop :=
  same_but_disk w w' ∧
  ∀ q, q ≠ p → entry_at (Some (w_fs w')) q = entry_at (Some (w_fs w)) q.

(** Every outcome of [m], a value or an exception, leaves the world related
    to the one it started in. *)
Definition always {A} (R : world → world → Prop) (m : M A) : Prop :=
  ∀ w r w', m w = (r, w') → R w w'.

(** ** Characters of a string *)

(** Every character of the string passes the test. *)
Fixpoint str_all (test : Ascii.ascii → bool) (s : string) : bool :=
  match s with
  | EmptyString => true
  | String a s' => test a && str_all test s'
  end.

(** [c in s] *)
Fixpoint str_contains (c : Ascii.ascii) (s : string) : bool :=
  match s with
  | EmptyString => false
  | String a s' => if decide (a = c) then true else str_contains c s'
  end.

(** ** The calendar and the growth of a disk *)

(** (year, month) comes before (year', month') in the calendar. *)
Definition earlier (a b : Z * Z) : Prop :=
  a.1 < b.1 ∨ (a.1 = b.1 ∧ a.2 < b.2).

(** The disk [root'] holds whatever [root] holds, directories as directories
    and files with their bytes, and what it holds besides is directories. *)
Definition grown (root root' : node) : Prop :=
  ∀ q, match entry_at (Some root) q with
       | Some e => entry_at (Some root') q = Some e
       | None => entry_at (Some root') q = None
                 ∨ entry_at (Some root') q = Some None
       end.

(** A run that leaves the disk grown and has printed nothing. *)
Definition silent_growth (w w' : world) : Prop :=
  grown (w_fs w) (w_fs w') ∧ w_stdout w' = w_stdout w.

(** A run that leaves the disk grown, whatever it prints. *)
Definition disk_grown (w w' : world) : Prop := grown (w_fs w) (w_fs w').

(** The line the script prints when it finds nothing to download. *)
Definition nothing_to_do (data_type : string) : string :=
  "All " +:+ data_type +:+ " taxi data files for the specified period already exist.".

(** * Reasoning about the monad *)

Section monad_facts.
Context {A B : Type}.

Lemma bind_unfold (m : M A) (f : A → M B) w :
  (m ≫= f) w = match m w with
               | (Return a, w') => f a w'
               | (Raise e, w') => (Raise e, w')
               end.
Proof. reflexivity. Qed.

Lemma bind_Return_inv (m : M A) (f : A → M B) w b w' :
  (m ≫= f) w = (Return b, w') →
  ∃ a w1, m w = (Return a, w1) ∧ f a w1 = (Return b, w').
Proof.
  rewrite bind_unfold. destruct (m w) as [[a|e] w1]; intros H.
  - by exists a, w1.
  - discriminate.
Qed.

Lemma bind_Return (m : M A) (f : A → M B) w a w1 :
  m w = (Return a, w1) → (m ≫= f) w = f a w1.
Proof. intros H. by rewrite bind_unfold, H. Qed.

End monad_facts.

Lemma mret_unfold {A} (a : A) w : mret (M := M) a w = (Return a, w).
Proof. reflexivity. Qed.

Lemma for_in_nil {A S} (body : A → S → M S) s :
  for_in [] body s = mret s.
Proof. reflexivity. Qed.

Lemma for_in_cons {A S} x (l : list A) (body : A → S → M S) s :
  for_in (x :: l) body s = body x s ≫= for_in l body.
Proof. reflexivity. Qed.

(** A loop that returns kept an invariant that every returning iteration
    keeps; the invariant may mention the elements already visited. *)
Lemma for_in_ind {A S} (I : list A → S → world → Prop) (l : list A)
    (body : A → S → M S) s w s' w' :
  I [] s w →
  (∀ visited x s1 w1 s2 w2,
      x ∈ l → I visited s1 w1 → body x s1 w1 = (Return s2, w2) →
      I (visited ++ [x]) s2 w2) →
  for_in l body s w = (Return s', w') →
  I l s' w'.
Proof.
  intros H0 Hstep.
  assert (∀ visited rest s1 w1,
            visited ++ rest = l → I visited s1 w1 →
            for_in rest body s1 w1 = (Return s', w') → I l s' w') as Hgen.
  { intros visited rest. revert visited.
    induction rest as [|x rest IH]; intros visited s1 w1 Hl HI Hrun.
    - rewrite app_nil_r in Hl. subst visited.
      rewrite for_in_nil, mret_unfold in Hrun. by simplify_eq.
    - rewrite for_in_cons in Hrun.
      apply bind_Return_inv in Hrun as (s2 & w2 & Hb & Hrest).
      apply (IH (visited ++ [x]) s2 w2); [by rewrite <- app_assoc| |done].
      apply (Hstep visited x s1 w1); [|done..].
      rewrite <- Hl. set_solver. }
  by apply (Hgen [] l s w).
Qed.

(** * The counting loop *)

Lemma tally_finished d successful failed w :
  tally (finished d) (successful, failed) w =
  (Return (successful + count_flag true [d], failed + count_flag false [d]), w).
Proof.
  destruct d as [t [p [|]]]; unfold tally, finished, count_flag; simpl;
    rewrite bind_unfold; simpl; rewrite mret_unfold; repeat f_equal; lia.
Qed.

Lemma count_flag_cons b d outs :
  count_flag b (d :: outs) = count_flag b [d] + count_flag b outs.
Proof.
  unfold count_flag. rewrite !filter_cons, filter_nil.
  destruct (decide (d.2.2 = b)); simpl; lia.
Qed.

Lemma tally_loop outs successful failed w :
  for_in (finished <$> outs) tally (successful, failed) w =
  (Return (successful + count_flag true outs, failed + count_flag false outs), w).
Proof.
  revert successful failed.
  induction outs as [|d outs IH]; intros successful failed.
  - simpl. rewrite mret_unfold. unfold count_flag. simpl.
    repeat f_equal; lia.
  - rewrite fmap_cons, for_in_cons, bind_unfold, tally_finished, IH.
    rewrite (count_flag_cons true d outs), (count_flag_cons false d outs).
    do 3 f_equal; lia.
Qed.

Lemma count_flag_total outs :
  count_flag true outs + count_flag false outs = Z.of_nat (length outs).
Proof.
  induction outs as [|d outs IH]; [done|].
  rewrite (count_flag_cons true d outs), (count_flag_cons false d outs).
  rewrite length_cons, Nat2Z.inj_succ, <- IH.
  unfold count_flag. rewrite !filter_cons, !filter_nil.
  destruct d as [t [p [|]]]; simpl;
    repeat (case_decide; try done); simpl; lia.
Qed.

Lemma count_flag_perm b outs outs' :
  outs' ≡ₚ outs → count_flag b outs' = count_flag b outs.
Proof. intros H. unfold count_flag. by rewrite H. Qed.

(** C8. Whatever the order in which the finished downloads reach the counting
    loop, it ends with [successful] the number of results whose flag is true
    and [failed] the number whose flag is false; the two add up to the number
    of tasks; and three successes are counted as (3, 0). *)
Theorem aggregator_counts (outs : list (task * (path * bool))) (w : world) :
  for_in (finished <$> outs) tally (0, 0) w =
    (Return (count_flag true outs, count_flag false outs), w)
  ∧ count_flag true outs + count_flag false outs = Z.of_nat (length outs)
  ∧ (∀ outs', outs' ≡ₚ outs →
       for_in (finished <$> outs') tally (0, 0) w =
         (Return (count_flag true outs, count_flag false outs), w))
  ∧ (∀ t1 t2 t3 p1 p2 p3,
       for_in (finished <$> [(t1, (p1, true)); (t2, (p2, true)); (t3, (p3, true))])
         tally (0, 0) w = (Return (3, 0), w)).
Proof.
  split_and!.
  - by rewrite tally_loop.
  - apply count_flag_total.
  - intros outs' Hperm. rewrite tally_loop.
    by rewrite !(count_flag_perm _ outs outs').
  - intros. by rewrite tally_loop.
Qed.

Lemma aggregator_counts_witness :
  for_in (finished <$> [(("u2", ["b"]), (["b"], false)); (("u1", ["a"]), (["a"], true))])
    tally (0, 0)
    (World (Dir ∅) (λ _, DateTime 2023 3) 0 (λ _, Unreachable) (λ _, None) (λ _, 0%nat) [])
  = (Return (1, 1),
     World (Dir ∅) (λ _, DateTime 2023 3) 0 (λ _, Unreachable) (λ _, None) (λ _, 0%nat) []).
Proof.
  pose proof (aggregator_counts
    [(("u1", ["a"]), (["a"], true)); (("u2", ["b"]), (["b"], false))]
    (World (Dir ∅) (λ _, DateTime 2023 3) 0 (λ _, Unreachable) (λ _, None) (λ _, 0%nat) []))
    as (_ & _ & Hperm & _).
  apply Hperm. apply Permutation_swap.
Defined.

(** * The planner *)

Lemma create_directory_structure_clock p w r w' :
  create_directory_structure p w = (r, w') → w_clock w' = w_clock w.
Proof.
  unfold create_directory_structure, os_path_exists, os_makedirs.
  rewrite bind_unfold. destruct (Fs.exists_ (w_fs w) p); simpl.
  - rewrite mret_unfold. by intros [= _ <-].
  - destruct (Fs.makedirs (Some (w_fs w)) p); by intros [= _ <-].
Qed.

Lemma datetime_now_stable now w :
  clock_at now w →
  datetime_now w = (Return now, set_tick (S (w_tick w)) w).
Proof. intros H. unfold datetime_now. by rewrite H. Qed.

Lemma plan_month_Return data_type existing now year month ts w ts' w' :
  clock_at now w →
  plan_month data_type existing (dt_year now) year month ts w = (Return ts', w') →
  clock_at now w' ∧
  ts' = ts ++ (task_for data_type year <$>
                 filter (wanted data_type existing now year) [month]).
Proof.
  intros Hclock. unfold plan_month. intros Hrun.
  apply bind_Return_inv in Hrun as (future & w1 & Hfut & Hrun).
  assert (clock_at now w1 ∧
          future = bool_decide (year = dt_year now ∧ month > dt_month now))
    as [Hclock1 ->].
  { destruct (decide (year = dt_year now)) as [Hy|Hy].
    - rewrite bind_unfold, (datetime_now_stable now) in Hfut by done.
      rewrite mret_unfold in Hfut. simplify_eq. split; [done|].
      apply bool_decide_ext. split; [by intros ?|by intros [_ ?]].
    - rewrite mret_unfold in Hfut. simplify_eq. split; [done|].
      symmetry. apply bool_decide_eq_false. by intros [? _]. }
  rewrite filter_cons, filter_nil.
  destruct (decide (wanted data_type existing now year month)) as [[Hnf Hni]|Hnw].
  - rewrite bool_decide_eq_false_2 in Hrun by done.
    rewrite decide_False in Hrun by done.
    apply bind_Return_inv in Hrun as ([] & w2 & Hmk & Hrun).
    rewrite mret_unfold in Hrun. simplify_eq. split; [|done].
    intros n. apply create_directory_structure_clock in Hmk.
    rewrite Hmk. apply Hclock1.
  - simpl. rewrite app_nil_r.
    case_bool_decide as Hfuture.
    { rewrite mret_unfold in Hrun. by simplify_eq. }
    destruct (decide ((data_type, year, month) ∈ existing)) as [Hin|Hin].
    { rewrite mret_unfold in Hrun. by simplify_eq. }
    destruct Hnw. by split.
Qed.

Lemma plan_months_Return data_type existing now year months ts w ts' w' :
  clock_at now w →
  for_in months (plan_month data_type existing (dt_year now) year) ts w
    = (Return ts', w') →
  clock_at now w' ∧
  ts' = ts ++ (task_for data_type year <$>
                 filter (wanted data_type existing now year) months).
Proof.
  intros Hclock Hrun.
  apply (for_in_ind (λ visited s w1,
           clock_at now w1 ∧
           s = ts ++ (task_for data_type year <$>
                        filter (wanted data_type existing now year) visited)))
    in Hrun; [done| |].
  - split; [done|]. by rewrite filter_nil, app_nil_r.
  - intros visited x s1 w1 s2 w2 _ [Hc ->] Hbody.
    apply plan_month_Return in Hbody as [Hc2 ->]; [|done].
    split; [done|]. by rewrite filter_app, fmap_app, app_assoc.
Qed.

Lemma plan_year_Return data_type existing now year ts w ts' w' :
  clock_at now w →
  plan_year data_type existing (dt_year now) year ts w = (Return ts', w') →
  clock_at now w' ∧
  ts' = ts ++ (task_for data_type year <$> planned_months data_type existing now year).
Proof.
  intros Hclock. unfold plan_year. intros Hrun.
  apply bind_Return_inv in Hrun as ([] & w1 & Hmk & Hrun).
  apply plan_months_Return in Hrun; [done|].
  intros n. apply create_directory_structure_clock in Hmk.
  rewrite Hmk. apply Hclock.
Qed.

Lemma plan_years_Return data_type existing now years ts w ts' w' :
  clock_at now w →
  for_in years (plan_year data_type existing (dt_year now)) ts w = (Return ts', w') →
  clock_at now w' ∧
  ts' = ts ++ (task_of data_type <$>
                 (year ← years;
                  (λ month, (year, month)) <$> planned_months data_type existing now year)).
Proof.
  intros Hclock Hrun.
  apply (for_in_ind (λ visited s w1,
           clock_at now w1 ∧
           s = ts ++ (task_of data_type <$>
                        (year ← visited;
                         (λ month, (year, month)) <$>
                           planned_months data_type existing now year))))
    in Hrun; [done| |].
  - split; [done|]. simpl. by rewrite app_nil_r.
  - intros visited x s1 w1 s2 w2 _ [Hc ->] Hbody.
    apply plan_year_Return in Hbody as [Hc2 ->]; [|done].
    split; [done|].
    rewrite bind_app, fmap_app, app_assoc. f_equal.
    simpl. rewrite app_nil_r, <- list_fmap_compose. done.
Qed.

(** With a clock that stands still, the task list the planner returns is the
    list of the wanted (year, month) pairs, in order. *)
Lemma prepare_download_tasks_Return start_year end_year data_type existing now w ts w' :
  clock_at now w →
  prepare_download_tasks start_year end_year data_type existing w = (Return ts, w') →
  clock_at now w' ∧
  ts = task_of data_type <$> planned data_type existing now start_year end_year.
Proof.
  intros Hclock. unfold prepare_download_tasks. intros Hrun.
  rewrite bind_unfold, (datetime_now_stable now) in Hrun by done.
  apply plan_years_Return in Hrun; [|done].
  destruct Hrun as [Hc ->]. done.
Qed.

(** ** Names are faithful: a task determines its year and month *)

Lemma pretty_N_go_length x s :
  (String.length s ≤ String.length (pretty_N_go x s))%nat.
Proof.
  revert s. induction (N.lt_wf_0 x) as [x _ IH]; intros s.
  assert (x = 0 ∨ 0 < x)%N as [->|Hx] by lia; [by rewrite pretty_N_go_0|].
  rewrite pretty_N_go_step by done.
  etrans; [|apply IH, N.div_lt; [done|lia]]. simpl. lia.
Qed.

Lemma pretty_N_go_head x s :
  (0 < x)%N → ∃ c r, pretty_N_go x s = String c r ∧ c ≠ "0"%char.
Proof.
  revert s. induction (N.lt_wf_0 x) as [x _ IH]; intros s Hx.
  rewrite pretty_N_go_step by done.
  destruct (N.eq_0_gt_0_cases (x `div` 10)) as [H0|Hpos].
  - rewrite H0, pretty_N_go_0. eexists _, _. split; [done|].
    assert (x < 10)%N by (by apply N.div_small_iff in H0).
    rewrite N.mod_small by done.
    assert (x = 1 ∨ x = 2 ∨ x = 3 ∨ x = 4 ∨ x = 5 ∨ x = 6
            ∨ x = 7 ∨ x = 8 ∨ x = 9)%N as Hcases by lia.
    destruct_or!; subst x; done.
  - apply IH; [|done]. apply N.div_lt; [done|lia].
Qed.

Lemma str_head (n : Z) :
  n ≠ 0 → ∃ c r, Py.str n = String c r ∧ c ≠ "0"%char.
Proof.
  intros Hn. unfold Py.str, pretty, pretty_Z.
  destruct n as [|p|p]; [done| |].
  - unfold pretty, pretty_positive, pretty, pretty_N.
    rewrite decide_False by done. by apply pretty_N_go_head.
  - eexists _, _. split; [reflexivity|done].
Qed.

Lemma str_long (n : Z) :
  n < 0 ∨ 10 ≤ n → (2 ≤ String.length (Py.str n))%nat.
Proof.
  intros Hn. unfold Py.str, pretty, pretty_Z.
  destruct n as [|p|p]; [lia| |].
  - unfold pretty, pretty_positive, pretty, pretty_N.
    rewrite decide_False by done.
    rewrite pretty_N_go_step by done.
    rewrite pretty_N_go_step by (apply N.div_str_pos; lia).
    etrans; [|apply pretty_N_go_length]. simpl. lia.
  - unfold pretty, pretty_positive, pretty, pretty_N.
    rewrite decide_False by done.
    rewrite pretty_N_go_step by done. simpl.
    apply le_n_S. etrans; [|apply pretty_N_go_length]. simpl. lia.
Qed.

Lemma zfill_long s : (2 ≤ String.length s)%nat → Py.zfill s 2 = s.
Proof.
  intros Hlen. unfold Py.zfill.
  replace (2 - String.length s)%nat with 0%nat by lia. simpl.
  destruct s as [|c r]; [done|].
  by repeat case_match.
Qed.

Lemma month_str_grid (month : Z) :
  1 ≤ month ≤ 12 →
  (∃ c, month_str month = String "0" (String c EmptyString))
  ∨ (10 ≤ month ∧ month_str month = Py.str month).
Proof.
  intros Hm.
  assert (month = 1 ∨ month = 2 ∨ month = 3 ∨ month = 4 ∨ month = 5 ∨ month = 6
          ∨ month = 7 ∨ month = 8 ∨ month = 9 ∨ month = 10 ∨ month = 11
          ∨ month = 12) as Hcases by lia.
  destruct_or!; subst month;
    first [ left; eexists; reflexivity | right; split; [lia|reflexivity] ].
Qed.

Lemma month_str_small (month : Z) :
  0 ≤ month < 10 → ∃ c, month_str month = String "0" (String c EmptyString)
                        ∧ Py.str month = String c EmptyString.
Proof.
  intros Hm.
  assert (month = 0 ∨ month = 1 ∨ month = 2 ∨ month = 3 ∨ month = 4 ∨ month = 5
          ∨ month = 6 ∨ month = 7 ∨ month = 8 ∨ month = 9) as Hcases by lia.
  destruct_or!; subst month; eexists; split; reflexivity.
Qed.

(** [str(month).zfill(2)] names the month: no other integer has the name of a
    month of the calendar. *)
Lemma month_str_inj (month month' : Z) :
  1 ≤ month' ≤ 12 → month_str month = month_str month' → month = month'.
Proof.
  intros Hm' Heq.
  assert (0 ≤ month < 10 ∨ (month < 0 ∨ 10 ≤ month)) as [Hsmall|Hlong] by lia.
  - destruct (month_str_small month Hsmall) as (c & Hc & Hs).
    destruct (month_str_grid month' Hm') as [[c' Hc']|[Hge Hc']].
    + rewrite Hc, Hc' in Heq. simplify_eq.
      assert (0 ≤ month' < 10) as Hsmall'.
      { destruct (decide (month' < 10)); [lia|].
        assert (month' = 10 ∨ month' = 11 ∨ month' = 12) as Hcases by lia.
        destruct_or!; subst month'; discriminate. }
      destruct (month_str_small month' Hsmall') as (c'' & Hc'' & Hs').
      rewrite Hc' in Hc''. simplify_eq.
      apply (inj Py.str). by rewrite Hs, Hs'.
    + rewrite Hc, Hc' in Heq.
      destruct (str_head month') as (d & r & Hd & Hne); [lia|].
      rewrite Hd in Heq. by simplify_eq.
  - assert (month_str month = Py.str month) as Hid.
    { unfold month_str. apply zfill_long. by apply str_long. }
    rewrite Hid in Heq.
    destruct (month_str_grid month' Hm') as [[c' Hc']|[Hge Hc']].
    + destruct (str_head month) as (d & r & Hd & Hne); [lia|].
      rewrite Hd, Hc' in Heq. by simplify_eq.
    + rewrite Hc' in Heq. by apply (inj Py.str).
Qed.

Lemma task_for_inj data_type year month year' month' :
  1 ≤ month' ≤ 12 →
  (task_for data_type year month).2 = (task_for data_type year' month').2 →
  year = year' ∧ month = month'.
Proof.
  intros Hm'. unfold task_for, month_path, year_path, os_path_join, base_path.
  simpl. intros [= Hy Hm _]. split.
  - by apply (inj Py.str).
  - by apply month_str_inj.
Qed.

(** ** What the planner emits, whatever the clock says *)

Lemma sublist_fmap {A B} (f : A → B) (l k : list A) :
  l `sublist_of` k → (f <$> l) `sublist_of` (f <$> k).
Proof. induction 1; simpl; by constructor. Qed.

Lemma elem_of_grid years year month :
  (year, month) ∈ grid years ↔ year ∈ years ∧ 1 ≤ month ≤ 12.
Proof.
  unfold grid. rewrite list_elem_of_bind. split.
  - intros (y & Hin & Hy). apply list_elem_of_fmap in Hin as (m & [= -> ->] & Hm).
    split; [done|]. unfold range in Hm. apply elem_of_seqZ in Hm. lia.
  - intros [Hy Hm]. exists year. split; [|done].
    apply list_elem_of_fmap. exists month. split; [done|].
    unfold range. apply elem_of_seqZ. lia.
Qed.

Lemma grid_snoc years year :
  grid (years ++ [year]) = grid years ++ ((λ month, (year, month)) <$> range 1 13).
Proof. unfold grid. by rewrite bind_app, bind_singleton. Qed.

Lemma NoDup_grid years : NoDup years → NoDup (grid years).
Proof.
  intros Hnd. unfold grid. apply NoDup_bind; [| |done].
  - intros y1 y2 [y m] _ _ H1 H2.
    apply list_elem_of_fmap in H1 as (? & [= -> ->] & _).
    by apply list_elem_of_fmap in H2 as (? & [= -> ->] & _).
  - intros y _. apply NoDup_fmap_2_strong; [|apply NoDup_seqZ].
    by intros m1 m2 _ _ [= ->].
Qed.

Lemma plan_month_cases data_type existing current_year year month ts w ts' w' :
  plan_month data_type existing current_year year month ts w = (Return ts', w') →
  ts' = ts ∨ (((data_type, year, month) ∉ existing) ∧
              ts' = ts ++ [task_for data_type year month]).
Proof.
  unfold plan_month. intros Hrun.
  apply bind_Return_inv in Hrun as ([|] & w1 & _ & Hrun).
  { rewrite mret_unfold in Hrun. left. by simplify_eq. }
  destruct (decide ((data_type, year, month) ∈ existing)) as [Hin|Hin].
  { rewrite mret_unfold in Hrun. left. by simplify_eq. }
  apply bind_Return_inv in Hrun as ([] & w2 & _ & Hrun).
  rewrite mret_unfold in Hrun. right. by simplify_eq.
Qed.

Lemma plan_year_sub data_type existing current_year year ts w ts' w' :
  plan_year data_type existing current_year year ts w = (Return ts', w') →
  ∃ months, months `sublist_of` range 1 13 ∧
            Forall (λ month, (data_type, year, month) ∉ existing) months ∧
            ts' = ts ++ (task_for data_type year <$> months).
Proof.
  unfold plan_year. intros Hrun.
  apply bind_Return_inv in Hrun as ([] & w1 & _ & Hrun).
  apply (for_in_ind (λ visited s _,
           ∃ months, months `sublist_of` visited ∧
                     Forall (λ month, (data_type, year, month) ∉ existing) months ∧
                     s = ts ++ (task_for data_type year <$> months)))
    in Hrun; [done| |].
  - exists []. split_and!; [done|done|]. by rewrite app_nil_r.
  - intros visited x s1 w2 s2 w3 _ (months & Hsub & Hall & ->) Hbody.
    apply plan_month_cases in Hbody as [->|[Hnew ->]].
    + exists months. split_and!; [|done..]. by apply sublist_inserts_r.
    + exists (months ++ [x]). split_and!.
      * by apply sublist_app.
      * apply Forall_app. split; [done|]. by apply Forall_singleton.
      * by rewrite fmap_app, app_assoc.
Qed.

Lemma plan_years_sub data_type existing current_year years ts w ts' w' :
  for_in years (plan_year data_type existing current_year) ts w = (Return ts', w') →
  ∃ pairs, pairs `sublist_of` grid years ∧
           Forall (λ ym, (data_type, ym.1, ym.2) ∉ existing) pairs ∧
           ts' = ts ++ (task_of data_type <$> pairs).
Proof.
  intros Hrun.
  apply (for_in_ind (λ visited s _,
           ∃ pairs, pairs `sublist_of` grid visited ∧
                    Forall (λ ym, (data_type, ym.1, ym.2) ∉ existing) pairs ∧
                    s = ts ++ (task_of data_type <$> pairs)))
    in Hrun; [done| |].
  - exists []. split_and!; [done|done|]. by rewrite app_nil_r.
  - intros visited x s1 w2 s2 w3 _ (pairs & Hsub & Hall & ->) Hbody.
    apply plan_year_sub in Hbody as (months & Hm & Hall' & ->).
    exists (pairs ++ ((λ month, (x, month)) <$> months)). split_and!.
    + rewrite grid_snoc. apply sublist_app; [done|]. by apply sublist_fmap.
    + apply Forall_app. split; [done|]. by apply Forall_fmap.
    + by rewrite fmap_app, app_assoc, <- list_fmap_compose.
Qed.

Lemma prepare_download_tasks_sub start_year end_year data_type existing w ts w' :
  prepare_download_tasks start_year end_year data_type existing w = (Return ts, w') →
  ∃ pairs,
    pairs `sublist_of`
      grid (range start_year (Z.min end_year (dt_year (w_clock w (w_tick w))) + 1)) ∧
    Forall (λ ym, (data_type, ym.1, ym.2) ∉ existing) pairs ∧
    ts = task_of data_type <$> pairs.
Proof.
  unfold prepare_download_tasks. intros Hrun.
  apply bind_Return_inv in Hrun as (now & w1 & Hnow & Hrun).
  unfold datetime_now in Hnow. simplify_eq.
  by apply plan_years_sub in Hrun.
Qed.

Lemma prepare_download_tasks_NoDup start_year end_year data_type existing w ts w' :
  prepare_download_tasks start_year end_year data_type existing w = (Return ts, w') →
  NoDup (ts.*2).
Proof.
  intros (pairs & Hsub & _ & ->)%prepare_download_tasks_sub.
  rewrite <- list_fmap_compose. apply NoDup_fmap_2_strong.
  - intros [y m] [y' m'] _ Hin' Heq. simpl in Heq.
    assert ((y', m') ∈ grid
              (range start_year
                 (Z.min end_year (dt_year (w_clock w (w_tick w))) + 1))) as Hg.
    { by eapply elem_of_sublist. }
    apply elem_of_grid in Hg as [_ Hm'].
    apply task_for_inj in Heq as [-> ->]; done.
  - eapply sublist_NoDup; [|done]. apply NoDup_grid, NoDup_seqZ.
Qed.

(** C5. The tasks of one planner invocation have pairwise distinct
    destination paths. *)
Theorem planner_paths_disjoint start_year end_year data_type existing w ts w' :
  prepare_download_tasks start_year end_year data_type existing w = (Return ts, w') →
  NoDup (ts.*2).
Proof. apply prepare_download_tasks_NoDup. Qed.

(** * The file system: what [os.makedirs] changes *)

#[global] Arguments Fs.kind_at : simpl never.

Lemma exists_kind root p :
  Fs.exists_ root p = true ↔ is_Some (Fs.kind_at (Some root) p).
Proof.
  unfold Fs.exists_, Fs.kind_at. destruct (Fs.node_at root p); simpl.
  - split; [by eauto|done].
  - split; [done|]. by intros [? ?].
Qed.

Lemma not_exists_kind root p :
  Fs.exists_ root p = false ↔ Fs.kind_at (Some root) p = None.
Proof.
  unfold Fs.exists_, Fs.kind_at. destruct (Fs.node_at root p); simpl; done.
Qed.

Lemma isdir_kind root p :
  Fs.isdir root p = true ↔ Fs.kind_at (Some root) p = Some Fs.IsDir.
Proof.
  unfold Fs.isdir, Fs.kind_at.
  destruct (Fs.node_at root p) as [[|]|]; simpl; split; done.
Qed.

Lemma isfile_kind root p :
  Fs.isfile root p = true ↔ Fs.kind_at (Some root) p = Some Fs.IsFile.
Proof.
  unfold Fs.isfile, Fs.kind_at.
  destruct (Fs.node_at root p) as [[|]|]; simpl; split; done.
Qed.

Lemma kind_at_cons es x q :
  Fs.kind_at (Some (Dir es)) (x :: q) = Fs.kind_at (es !! x) q.
Proof. unfold Fs.kind_at. simpl. by destruct (es !! x). Qed.

Lemma kind_at_file d x q : Fs.kind_at (Some (File d)) (x :: q) = None.
Proof. done. Qed.

(** After [os.makedirs(p)] the path and its ancestors are directories, and
    every other path is what it was. *)
Lemma makedirs_kind o p n' q :
  Fs.makedirs o p = Return n' →
  Fs.kind_at (Some n') q =
    if decide (q `prefix_of` p) then Some Fs.IsDir else Fs.kind_at o q.
Proof.
  revert o n' q. induction p as [|x p IH]; intros o n' q Hmk.
  - destruct o; [done|]. simpl in Hmk. simplify_eq.
    destruct q as [|y q].
    + by rewrite decide_True by done.
    + rewrite decide_False by (by intros ?%prefix_nil_inv).
      by rewrite kind_at_cons, lookup_empty.
  - simpl in Hmk.
    assert (∃ c es, Fs.makedirs (es !! x) p = Return c ∧ n' = Dir (<[x:=c]> es)
                    ∧ ∀ y q', Fs.kind_at o (y :: q') = Fs.kind_at (es !! y) q')
      as (c & es & Hc & -> & Hold).
    { destruct o as [[d|es]|]; [done| |].
      - destruct (Fs.makedirs (es !! x) p) as [c|] eqn:Hc; [|done].
        simplify_eq. exists c, es. split_and!; [done..|].
        intros. apply kind_at_cons.
      - destruct (Fs.makedirs None p) as [c|] eqn:Hc; [|done].
        simplify_eq. exists c, ∅. rewrite lookup_empty. split_and!; [done..|].
        intros. by rewrite lookup_empty. }
    destruct q as [|y q].
    + rewrite decide_True by apply prefix_nil. done.
    + rewrite kind_at_cons, Hold.
      destruct (decide (y = x)) as [->|Hne].
      * rewrite lookup_insert_eq. rewrite (IH _ _ q Hc).
        destruct (decide (q `prefix_of` p)) as [Hp|Hp].
        -- rewrite decide_True; [done|]. by apply prefix_cons.
        -- rewrite decide_False; [done|]. by intros ?%prefix_cons_inv_2.
      * rewrite lookup_insert_ne by done.
        rewrite decide_False; [done|]. by intros ?%prefix_cons_inv_1.
Qed.

(** [os.makedirs] succeeds on a missing entry of an existing directory. *)
Lemma makedirs_child n p es x :
  Fs.node_at n p = Some (Dir es) → es !! x = None →
  ∃ n', Fs.makedirs (Some n) (p ++ [x]) = Return n'.
Proof.
  revert n. induction p as [|y p IH]; intros n Hn Hx.
  - simpl in Hn. simplify_eq. simpl. rewrite Hx. eauto.
  - simpl in Hn. destruct n as [d|es']; [done|].
    destruct (es' !! y) as [c|] eqn:Hy; [|done].
    destruct (IH c Hn Hx) as [c' Hc'].
    simpl. rewrite Hy, Hc'. eauto.
Qed.

Lemma node_at_app n p q :
  Fs.node_at n (p ++ q) = Fs.node_at n p ≫= λ c, Fs.node_at c q.
Proof.
  revert n. induction p as [|x p IH]; intros n; [done|].
  simpl. destruct n as [d|es]; [done|]. destruct (es !! x); [apply IH|done].
Qed.

Lemma kind_prefix n p q :
  is_Some (Fs.kind_at (Some n) p) → q `prefix_of` p →
  q = p ∨ Fs.kind_at (Some n) q = Some Fs.IsDir.
Proof.
  revert n q. induction p as [|x p IH]; intros n q Hp Hq.
  - left. by apply prefix_nil_inv.
  - destruct q as [|y q].
    + right. destruct n; [|done]. rewrite kind_at_file in Hp. by destruct Hp.
    + assert (y = x) as -> by (by apply prefix_cons_inv_1 in Hq).
      apply prefix_cons_inv_2 in Hq.
      destruct n as [d|es]; [rewrite kind_at_file in Hp; by destruct Hp|].
      rewrite kind_at_cons in Hp. rewrite kind_at_cons.
      destruct (es !! x) as [c|]; [|by destruct Hp].
      destruct (IH c q Hp Hq) as [->|Hk]; [by left|by right].
Qed.

Lemma makedirs_prefix o p n' q :
  Fs.makedirs o p = Return n' → q `prefix_of` p →
  Fs.kind_at o q = None ∨ Fs.kind_at o q = Some Fs.IsDir.
Proof.
  revert o n' q. induction p as [|x p IH]; intros o n' q Hmk Hq.
  - destruct o; [done|]. by left.
  - destruct o as [[d|es]|]; [done| |by left].
    destruct q as [|y q]; [by right|].
    assert (y = x) as -> by (by apply prefix_cons_inv_1 in Hq).
    apply prefix_cons_inv_2 in Hq.
    simpl in Hmk. destruct (Fs.makedirs (es !! x) p) as [c|] eqn:Hc; [|done].
    rewrite kind_at_cons. by eapply IH.
Qed.

(** "Create if missing": when it returns, what was there is still there, and
    the path and its missing ancestors are new directories. *)
Lemma create_directory_structure_Return p w w' :
  create_directory_structure p w = (Return tt, w') →
  ∀ q, Fs.kind_at (Some (w_fs w')) q =
       kind_after (Fs.kind_at (Some (w_fs w)) q) (bool_decide (q `prefix_of` p)).
Proof.
  unfold create_directory_structure, os_path_exists, os_makedirs.
  rewrite bind_unfold. destruct (Fs.exists_ (w_fs w) p) eqn:Hex; simpl.
  - rewrite mret_unfold. intros [= <-] q.
    apply exists_kind in Hex.
    destruct (Fs.kind_at (Some (w_fs w)) q) eqn:Hq; [done|]. simpl.
    case_bool_decide as Hpre; [|done].
    destruct (kind_prefix _ _ _ Hex Hpre) as [->|Hd]; [|congruence].
    rewrite Hq in Hex. by destruct Hex.
  - destruct (Fs.makedirs (Some (w_fs w)) p) as [n'|] eqn:Hmk; [|done].
    intros [= <-] q. simpl. rewrite (makedirs_kind _ _ _ q Hmk).
    case_bool_decide as Hpre.
    + rewrite decide_True by done.
      by destruct (makedirs_prefix _ _ _ _ Hmk Hpre) as [->| ->].
    + rewrite decide_False by done.
      by destruct (Fs.kind_at (Some (w_fs w)) q).
Qed.

(** "Create if missing" returns for an entry of an existing directory. *)
Lemma create_directory_structure_child parent name w :
  Fs.isdir (w_fs w) parent = true →
  ∃ w', create_directory_structure (parent ++ [name]) w = (Return tt, w').
Proof.
  intros Hdir. unfold create_directory_structure, os_path_exists, os_makedirs.
  rewrite bind_unfold. destruct (Fs.exists_ (w_fs w) (parent ++ [name])) eqn:Hex; simpl.
  { rewrite mret_unfold. eauto. }
  unfold Fs.isdir in Hdir.
  destruct (Fs.node_at (w_fs w) parent) as [[d|es]|] eqn:Hparent; [done| |done].
  unfold Fs.exists_ in Hex. rewrite node_at_app, Hparent in Hex. simpl in Hex.
  destruct (es !! name) as [c|] eqn:Hname; [done|].
  destruct (makedirs_child _ _ _ name Hparent Hname) as [n' ->]. eauto.
Qed.

Lemma kind_after_compose k a b :
  kind_after (kind_after k a) b = kind_after k (a || b).
Proof. by destruct k, a, b. Qed.

Lemma kind_after_false k : kind_after k false = k.
Proof. by destruct k. Qed.

(** * The planner and the directory tree *)

Lemma plan_month_effect data_type existing current_year year month ts w ts' w' :
  plan_month data_type existing current_year year month ts w = (Return ts', w') →
  ∃ b : bool,
    ts' = ts ++ (if b then [task_for data_type year month] else []) ∧
    (b = true → (data_type, year, month) ∉ existing) ∧
    ∀ q, Fs.kind_at (Some (w_fs w')) q =
         kind_after (Fs.kind_at (Some (w_fs w)) q)
           (b && bool_decide (q `prefix_of` month_path year month)).
Proof.
  unfold plan_month. intros Hrun.
  apply bind_Return_inv in Hrun as (future & w1 & Hfut & Hrun).
  assert (w_fs w1 = w_fs w) as Hfs.
  { destruct (decide (year = current_year)).
    - rewrite bind_unfold in Hfut. unfold datetime_now in Hfut.
      rewrite mret_unfold in Hfut. by simplify_eq.
    - rewrite mret_unfold in Hfut. by simplify_eq. }
  destruct future.
  { rewrite mret_unfold in Hrun. simplify_eq. exists false.
    rewrite Hfs. split_and!; [by rewrite app_nil_r|done|].
    intros q. by rewrite kind_after_false. }
  destruct (decide ((data_type, year, month) ∈ existing)) as [Hin|Hin].
  { rewrite mret_unfold in Hrun. simplify_eq. exists false.
    rewrite Hfs. split_and!; [by rewrite app_nil_r|done|].
    intros q. by rewrite kind_after_false. }
  apply bind_Return_inv in Hrun as ([] & w2 & Hmk & Hrun).
  rewrite mret_unfold in Hrun. simplify_eq. exists true.
  split_and!; [done|done|].
  intros q. rewrite (create_directory_structure_Return _ _ _ Hmk q).
  by rewrite Hfs.
Qed.

Lemma plan_year_effect data_type existing current_year year ts w ts' w' :
  plan_year data_type existing current_year year ts w = (Return ts', w') →
  ∃ months,
    months `sublist_of` range 1 13 ∧
    ts' = ts ++ (task_for data_type year <$> months) ∧
    ∀ q, Fs.kind_at (Some (w_fs w')) q =
         kind_after (Fs.kind_at (Some (w_fs w)) q)
           (bool_decide (made [year] ((λ month, (year, month)) <$> months) q)).
Proof.
  unfold plan_year. intros Hrun.
  apply bind_Return_inv in Hrun as ([] & w1 & Hmk & Hrun).
  apply (for_in_ind (λ visited s w2,
           ∃ months,
             months `sublist_of` visited ∧
             s = ts ++ (task_for data_type year <$> months) ∧
             ∀ q, Fs.kind_at (Some (w_fs w2)) q =
                  kind_after (Fs.kind_at (Some (w_fs w)) q)
                    (bool_decide
                       (made [year] ((λ month, (year, month)) <$> months) q))))
    in Hrun; [done| |].
  - exists []. split_and!; [done|by rewrite app_nil_r|].
    intros q. rewrite (create_directory_structure_Return _ _ _ Hmk q).
    f_equal. apply bool_decide_ext. unfold made.
    rewrite Exists_cons, Exists_nil, fmap_nil, Exists_nil. tauto.
  - intros visited x s1 w2 s2 w3 _ (months & Hsub & -> & Hkind) Hbody.
    apply plan_month_effect in Hbody as (b & -> & _ & Hkind').
    exists (months ++ if b then [x] else []). split_and!.
    + apply sublist_app; [done|]. destruct b; [done|apply sublist_nil_l].
    + rewrite fmap_app, app_assoc. f_equal. by destruct b.
    + intros q. rewrite Hkind', Hkind, kind_after_compose. f_equal.
      destruct b; simpl.
      * rewrite <- bool_decide_or. apply bool_decide_ext. unfold made.
        rewrite fmap_app, Exists_app, fmap_cons, fmap_nil, !Exists_cons, !Exists_nil.
        simpl. tauto.
      * rewrite orb_false_r, app_nil_r. done.
Qed.

Lemma made_snoc years pairs year new q :
  made (years ++ [year]) (pairs ++ new) q ↔ made years pairs q ∨ made [year] new q.
Proof.
  unfold made. rewrite !Exists_app, !Exists_cons, !Exists_nil. tauto.
Qed.

Lemma plan_years_effect data_type existing current_year years ts w ts' w' :
  for_in years (plan_year data_type existing current_year) ts w = (Return ts', w') →
  ∃ pairs,
    pairs `sublist_of` grid years ∧
    ts' = ts ++ (task_of data_type <$> pairs) ∧
    ∀ q, Fs.kind_at (Some (w_fs w')) q =
         kind_after (Fs.kind_at (Some (w_fs w)) q) (bool_decide (made years pairs q)).
Proof.
  intros Hrun.
  apply (for_in_ind (λ visited s w1,
           ∃ pairs,
             pairs `sublist_of` grid visited ∧
             s = ts ++ (task_of data_type <$> pairs) ∧
             ∀ q, Fs.kind_at (Some (w_fs w1)) q =
                  kind_after (Fs.kind_at (Some (w_fs w)) q)
                    (bool_decide (made visited pairs q))))
    in Hrun; [done| |].
  - exists []. split_and!; [done|by rewrite app_nil_r|].
    intros q. rewrite bool_decide_eq_false_2; [by rewrite kind_after_false|].
    unfold made. rewrite !Exists_nil. tauto.
  - intros visited x s1 w1 s2 w2 _ (pairs & Hsub & -> & Hkind) Hbody.
    apply plan_year_effect in Hbody as (months & Hm & -> & Hkind').
    exists (pairs ++ ((λ month, (x, month)) <$> months)). split_and!.
    + rewrite grid_snoc. apply sublist_app; [done|]. by apply sublist_fmap.
    + by rewrite fmap_app, app_assoc, <- list_fmap_compose.
    + intros q. rewrite Hkind', Hkind, kind_after_compose. f_equal.
      rewrite <- bool_decide_or. apply bool_decide_ext. by rewrite made_snoc.
Qed.

Lemma prepare_download_tasks_effect start_year end_year data_type existing w ts w' :
  prepare_download_tasks start_year end_year data_type existing w = (Return ts, w') →
  let years := range start_year (Z.min end_year (dt_year (w_clock w (w_tick w))) + 1) in
  ∃ pairs,
    pairs `sublist_of` grid years ∧
    ts = task_of data_type <$> pairs ∧
    ∀ q, Fs.kind_at (Some (w_fs w')) q =
         kind_after (Fs.kind_at (Some (w_fs w)) q) (bool_decide (made years pairs q)).
Proof.
  unfold prepare_download_tasks. intros Hrun.
  apply bind_Return_inv in Hrun as (now & w1 & Hnow & Hrun).
  unfold datetime_now in Hnow. simplify_eq.
  by apply plan_years_effect in Hrun.
Qed.

Lemma elem_of_tasks data_type pairs year month :
  Forall (λ ym, 1 ≤ ym.2 ≤ 12) pairs →
  task_for data_type year month ∈ task_of data_type <$> pairs ↔ (year, month) ∈ pairs.
Proof.
  intros Hmonths. split.
  - intros ([y' m'] & Heq & Hin)%list_elem_of_fmap.
    rewrite Forall_forall in Hmonths. specialize (Hmonths _ Hin). simpl in Hmonths.
    unfold task_of in Heq. simpl in Heq.
    assert (year = y' ∧ month = m') as [-> ->]; [|done].
    apply (task_for_inj data_type); [done|]. by rewrite Heq.
  - intros Hin. apply list_elem_of_fmap. by exists (year, month).
Qed.

Lemma sublist_grid_months pairs years :
  pairs `sublist_of` grid years → Forall (λ ym, 1 ≤ ym.2 ≤ 12) pairs.
Proof.
  intros Hsub. apply Forall_forall. intros [y m] Hin.
  eapply elem_of_sublist in Hin; [|done].
  by apply elem_of_grid in Hin as [_ ?].
Qed.

(** C10. When the planner returns, the directory of every year from the start
    year to the clamped end year exists, and is a new directory if it was
    missing, whether or not a task was emitted for that year; a month
    directory that was missing exists afterwards only if a task was emitted
    for that month; and the month directory of every emitted task exists. *)
Theorem planner_directories start_year end_year data_type existing w ts w' :
  prepare_download_tasks start_year end_year data_type existing w = (Return ts, w') →
  let current_year := dt_year (w_clock w (w_tick w)) in
  (∀ year, start_year ≤ year ≤ Z.min end_year current_year →
     Fs.exists_ (w_fs w') (year_path year) = true ∧
     (Fs.exists_ (w_fs w) (year_path year) = false →
      Fs.isdir (w_fs w') (year_path year) = true))
  ∧ (∀ year month,
       Fs.exists_ (w_fs w) (month_path year month) = false →
       Fs.exists_ (w_fs w') (month_path year month) = true →
       task_for data_type year month ∈ ts)
  ∧ (∀ year month,
       task_for data_type year month ∈ ts →
       Fs.exists_ (w_fs w') (month_path year month) = true).
Proof.
  intros (pairs & Hsub & -> & Hkind)%prepare_download_tasks_effect current_year.
  pose proof (sublist_grid_months _ _ Hsub) as Hmonths.
  split_and!.
  - intros year Hyear.
    assert (bool_decide
              (made (range start_year (Z.min end_year current_year + 1)) pairs
                 (year_path year)) = true) as Hmade.
    { apply bool_decide_eq_true. left. apply Exists_exists. exists year.
      split; [|done]. unfold range. apply elem_of_seqZ. lia. }
    specialize (Hkind (year_path year)). fold current_year in Hkind.
    rewrite Hmade in Hkind. split.
    + apply exists_kind. rewrite Hkind.
      by destruct (Fs.kind_at (Some (w_fs w)) (year_path year)).
    + intros Hmissing%not_exists_kind. apply isdir_kind.
      by rewrite Hkind, Hmissing.
  - intros year month Hmissing%not_exists_kind [k Hk]%exists_kind.
    rewrite Hkind, Hmissing in Hk. simpl in Hk.
    case_bool_decide as Hmade; [|done].
    destruct Hmade as [Hy|Hym].
    + apply Exists_exists in Hy as (y' & _ & Hpre).
      apply prefix_length in Hpre. by simpl in Hpre; lia.
    + apply Exists_exists in Hym as ([y' m'] & Hin & Hpre). simpl in Hpre.
      apply prefix_length_eq in Hpre; [|done].
      assert (1 ≤ m' ≤ 12) as Hm'.
      { rewrite Forall_forall in Hmonths. by apply (Hmonths (y', m')). }
      assert (year = y' ∧ month = m') as [-> ->].
      { unfold month_path, year_path, os_path_join, base_path in Hpre.
        simpl in Hpre. injection Hpre as Hy Hm. split.
        - by apply (inj Py.str).
        - by apply month_str_inj. }
      by apply elem_of_tasks.
  - intros year month Hin%elem_of_tasks; [|done].
    apply exists_kind. rewrite Hkind.
    rewrite bool_decide_eq_true_2.
    + by destruct (Fs.kind_at (Some (w_fs w)) (month_path year month)).
    + right. apply Exists_exists. by exists (year, month).
Qed.

(** * The planner under a clock that stands still *)

Lemma elem_of_planned data_type existing now start_year end_year year month :
  (year, month) ∈ planned data_type existing now start_year end_year ↔
  start_year ≤ year ≤ Z.min end_year (dt_year now) ∧ 1 ≤ month ≤ 12 ∧
  wanted data_type existing now year month.
Proof.
  unfold planned, planned_months. rewrite list_elem_of_bind. split.
  - intros (y & Hin & Hy).
    apply list_elem_of_fmap in Hin as (m & [= -> ->] & Hm).
    apply list_elem_of_filter in Hm as [Hw Hm].
    unfold range in Hy, Hm. apply elem_of_seqZ in Hy, Hm. split_and!; [lia..|done].
  - intros (Hy & Hm & Hw). exists year. split.
    + apply list_elem_of_fmap. exists month. split; [done|].
      apply list_elem_of_filter. split; [done|].
      unfold range. apply elem_of_seqZ. lia.
    + unfold range. apply elem_of_seqZ. lia.
Qed.

Lemma planned_months_grid data_type existing now start_year end_year :
  Forall (λ ym, 1 ≤ ym.2 ≤ 12) (planned data_type existing now start_year end_year).
Proof.
  apply Forall_forall. intros [y m] Hin.
  by apply elem_of_planned in Hin as (_ & ? & _).
Qed.

(** The tasks of a run are the tasks of the wanted months of the range. *)
Lemma prepare_download_tasks_elem start_year end_year data_type existing now w ts w'
    year month :
  clock_at now w →
  prepare_download_tasks start_year end_year data_type existing w = (Return ts, w') →
  task_for data_type year month ∈ ts ↔
  start_year ≤ year ≤ Z.min end_year (dt_year now) ∧ 1 ≤ month ≤ 12 ∧
  wanted data_type existing now year month.
Proof.
  intros Hclock Hrun.
  apply (prepare_download_tasks_Return _ _ _ _ now) in Hrun as [_ ->]; [|done].
  rewrite elem_of_tasks by apply planned_months_grid.
  apply elem_of_planned.
Qed.


(** A loop returns when every iteration returns and keeps the condition under
    which it returns. *)
Lemma for_in_returns {A S} (P : S → world → Prop) (l : list A)
    (body : A → S → M S) s w :
  P s w →
  (∀ x s1 w1, x ∈ l → P s1 w1 → ∃ s2 w2, body x s1 w1 = (Return s2, w2) ∧ P s2 w2) →
  ∃ s' w', for_in l body s w = (Return s', w') ∧ P s' w'.
Proof.
  revert s w. induction l as [|x l IH]; intros s w HP Hstep.
  - exists s, w. by rewrite for_in_nil, mret_unfold.
  - destruct (Hstep x s w) as (s2 & w2 & Hbody & HP2); [set_solver|done|].
    destruct (IH s2 w2 HP2) as (s' & w' & Hrest & HP').
    { intros y s1 w1 Hy. apply Hstep. set_solver. }
    exists s', w'. split; [|done].
    by rewrite for_in_cons, (bind_Return _ _ _ _ _ Hbody).
Qed.

Lemma plan_month_skip data_type existing now year month ts w :
  clock_at now w →
  ¬ wanted data_type existing now year month →
  ∃ w', plan_month data_type existing (dt_year now) year month ts w = (Return ts, w')
        ∧ clock_at now w' ∧ w_fs w' = w_fs w.
Proof.
  intros Hclock Hskip. unfold plan_month.
  destruct (decide (year = dt_year now)) as [Hy|Hy].
  - rewrite (bind_Return _ _ _ _ _
               (bind_Return _ _ _ _ _ (datetime_now_stable now w Hclock))).
    case_bool_decide as Hm.
    + eexists. split_and!; [reflexivity|exact Hclock|reflexivity].
    + destruct (decide ((data_type, year, month) ∈ existing)).
      * eexists. split_and!; [reflexivity|exact Hclock|reflexivity].
      * destruct Hskip. split; [|done]. by intros [_ ?].
  - rewrite bind_unfold, mret_unfold.
    destruct (decide ((data_type, year, month) ∈ existing)).
    + eexists. split_and!; [reflexivity|exact Hclock|reflexivity].
    + destruct Hskip. split; [|done]. by intros [? _].
Qed.

(** C4. With a clock that stands still, a second run of the planner, given an
    existing set that holds the first existing set and the (category, year,
    month) of every task of the first run, returns the empty task list. *)
Theorem planner_idempotent start_year end_year data_type existing existing' now
    w ts w1 w2 :
  clock_at now w →
  prepare_download_tasks start_year end_year data_type existing w = (Return ts, w1) →
  existing ⊆ existing' →
  (∀ year month, task_for data_type year month ∈ ts →
                 (data_type, year, month) ∈ existing') →
  clock_at now w2 →
  Fs.isdir (w_fs w2) base_path = true →
  ∃ w2', prepare_download_tasks start_year end_year data_type existing' w2
         = (Return [], w2').
Proof.
  intros Hclock Hrun Hsub Hnew Hclock2 Hbase.
  assert (∀ year month,
            start_year ≤ year ≤ Z.min end_year (dt_year now) → 1 ≤ month ≤ 12 →
            ¬ wanted data_type existing' now year month) as Hskip.
  { intros year month Hy Hm [Hfuture Hex]. apply Hex, Hnew.
    apply (prepare_download_tasks_elem _ _ _ _ now _ _ _ year month Hclock Hrun).
    split; [done|]. split; [done|]. split; [done|].
    intros Hin. apply Hex. by apply Hsub. }
  unfold prepare_download_tasks.
  rewrite (bind_Return _ _ _ _ _ (datetime_now_stable now w2 Hclock2)).
  destruct (for_in_returns
              (λ s w3, s = [] ∧ clock_at now w3 ∧ Fs.isdir (w_fs w3) base_path = true)
              (range start_year (Z.min end_year (dt_year now) + 1))
              (plan_year data_type existing' (dt_year now)) []
              (set_tick (S (w_tick w2)) w2))
    as (s' & w' & Hloop & -> & _); [done| |by eauto].
  intros year s1 w3 Hyear (-> & Hc3 & Hb3).
  unfold range in Hyear. apply elem_of_seqZ in Hyear.
  unfold plan_year.
  destruct (create_directory_structure_child base_path (Py.str year) w3 Hb3)
    as [w4 Hmk].
  fold (year_path year) in Hmk.
  rewrite (bind_Return _ _ _ _ _ Hmk).
  assert (clock_at now w4) as Hc4.
  { intros n. apply create_directory_structure_clock in Hmk.
    rewrite Hmk. apply Hc3. }
  assert (Fs.isdir (w_fs w4) base_path = true) as Hb4.
  { apply isdir_kind. rewrite (create_directory_structure_Return _ _ _ Hmk).
    apply isdir_kind in Hb3. by rewrite Hb3. }
  apply (for_in_returns
           (λ s w5, s = [] ∧ clock_at now w5 ∧ Fs.isdir (w_fs w5) base_path = true));
    [done|].
  intros month s2 w5 Hmonth (-> & Hc5 & Hb5).
  unfold range in Hmonth. apply elem_of_seqZ in Hmonth.
  destruct (plan_month_skip data_type existing' now year month [] w5 Hc5)
    as (w6 & Hplan & Hc6 & Hfs6); [apply Hskip; lia|].
  exists [], w6. split; [done|]. by rewrite Hfs6.
Qed.

(** * The scanner *)

Lemma listdir_names root p l name :
  Fs.listdir root p = Return l →
  name ∈ l ↔ Fs.exists_ root (p ++ [name]) = true.
Proof.
  unfold Fs.listdir, Fs.exists_. rewrite node_at_app.
  destruct (Fs.node_at root p) as [[d|es]|]; [done| |done].
  intros [= <-]. simpl. rewrite list_elem_of_fmap. split.
  - intros ([k c] & -> & Hin). apply elem_of_map_to_list in Hin.
    simpl. by rewrite Hin.
  - destruct (es !! name) as [c|] eqn:Hc; [|done]. intros _.
    exists (name, c). split; [done|]. by apply elem_of_map_to_list.
Qed.

Lemma listdir_isdir root p :
  Fs.isdir root p = true → Fs.listdir root p = Return (names root p).
Proof.
  unfold names, Fs.isdir, Fs.listdir.
  by destruct (Fs.node_at root p) as [[d|es]|].
Qed.

Lemma elem_of_names root p name :
  Fs.isdir root p = true →
  name ∈ names root p ↔ Fs.exists_ root (p ++ [name]) = true.
Proof. intros Hdir. apply listdir_names. by apply listdir_isdir. Qed.

(** A loop whose iterations only add to the set, and leave the world alone,
    returns the union. *)
Lemma for_in_union {A} (f : A → gset record) (l : list A)
    (body : A → gset record → M (gset record)) s w :
  (∀ x s1, body x s1 w = (Return (f x ∪ s1), w)) →
  for_in l body s w = (Return (⋃ (f <$> l) ∪ s), w).
Proof.
  intros Hbody. revert s. induction l as [|x l IH]; intros s.
  - rewrite for_in_nil, mret_unfold. simpl. by rewrite (left_id_L ∅ (∪)).
  - rewrite for_in_cons, (bind_Return _ _ _ _ _ (Hbody x s)), IH.
    simpl. do 2 f_equal. set_solver.
Qed.

Lemma scan_file_records year month file existing w :
  scan_file year month file existing w
  = (Return (file_records year month file ∪ existing), w).
Proof.
  unfold scan_file, file_records, category_of.
  destruct (Py.endswith file ".parquet"); rewrite mret_unfold; [done|].
  by rewrite (left_id_L ∅ (∪)).
Qed.

Lemma scan_month_records year year_path month_dir existing w :
  scan_month year year_path month_dir existing w
  = (Return (month_records (w_fs w) year year_path month_dir ∪ existing), w).
Proof.
  unfold scan_month, month_records, os_path_join.
  rewrite bind_unfold. unfold os_path_isdir at 1.
  destruct (Fs.isdir (w_fs w) (year_path ++ [month_dir])) eqn:Hdir; simpl.
  - unfold try_except_ValueError, int.
    destruct (Py.int month_dir) as [month|].
    + rewrite bind_unfold, mret_unfold, bind_unfold. unfold os_listdir.
      rewrite (listdir_isdir _ _ Hdir).
      rewrite (for_in_union (file_records year month)); [done|].
      intros. apply scan_file_records.
    + rewrite bind_unfold. unfold raise. rewrite mret_unfold.
      by rewrite (left_id_L ∅ (∪)).
  - rewrite mret_unfold. by rewrite (left_id_L ∅ (∪)).
Qed.

Lemma scan_year_records base year_dir existing w :
  scan_year base year_dir existing w
  = (Return (year_records (w_fs w) base year_dir ∪ existing), w).
Proof.
  unfold scan_year, year_records, os_path_join.
  rewrite bind_unfold. unfold os_path_isdir at 1.
  destruct (Fs.isdir (w_fs w) (base ++ [year_dir])) eqn:Hdir; simpl.
  - unfold try_except_ValueError, int.
    destruct (Py.int year_dir) as [year|].
    + rewrite bind_unfold, mret_unfold, bind_unfold. unfold os_listdir.
      rewrite (listdir_isdir _ _ Hdir).
      rewrite (for_in_union (month_records (w_fs w) year (base ++ [year_dir])));
        [done|].
      intros. apply scan_month_records.
    + rewrite bind_unfold. unfold raise. rewrite mret_unfold.
      by rewrite (left_id_L ∅ (∪)).
  - rewrite mret_unfold. by rewrite (left_id_L ∅ (∪)).
Qed.

(** On a base path that is a directory or is missing, the scanner returns
    [scan] and leaves the world as it is. *)
Lemma get_existing_downloads_scan base w :
  Fs.isfile (w_fs w) base = false →
  get_existing_downloads base w = (Return (scan (w_fs w) base), w).
Proof.
  intros Hfile. unfold get_existing_downloads, scan.
  rewrite bind_unfold. unfold os_path_exists at 1.
  destruct (Fs.exists_ (w_fs w) base) eqn:Hex; simpl.
  - assert (Fs.isdir (w_fs w) base = true) as Hdir.
    { revert Hfile Hex. unfold Fs.isfile, Fs.exists_, Fs.isdir.
      by destruct (Fs.node_at (w_fs w) base) as [[d|es]|]. }
    rewrite bind_unfold. unfold os_listdir. rewrite (listdir_isdir _ _ Hdir).
    rewrite (for_in_union (year_records (w_fs w) base)).
    + by rewrite (right_id_L ∅ (∪)).
    + intros. apply scan_year_records.
  - rewrite mret_unfold. do 2 f_equal. unfold names, Fs.listdir.
    revert Hex. unfold Fs.exists_.
    by destruct (Fs.node_at (w_fs w) base).
Qed.

Lemma elem_of_scan root base r :
  Fs.isfile root base = false →
  r ∈ scan root base ↔ on_disk root base r.
Proof.
  intros Hfile. destruct r as [[c y] m]. unfold scan, on_disk. simpl.
  rewrite elem_of_union_list. split.
  - intros (X & HX & Hr).
    apply list_elem_of_fmap in HX as (year_dir & -> & Hyd).
    unfold year_records in Hr.
    destruct (Fs.isdir root (base ++ [year_dir])) eqn:Hydir; [|set_solver].
    destruct (Py.int year_dir) as [year|] eqn:Hyear; [|set_solver].
    apply elem_of_union_list in Hr as (X & HX & Hr).
    apply list_elem_of_fmap in HX as (month_dir & -> & Hmd).
    unfold month_records in Hr. rewrite <- app_assoc in Hr. simpl in Hr.
    destruct (Fs.isdir root (base ++ [year_dir; month_dir])) eqn:Hmdir; [|set_solver].
    destruct (Py.int month_dir) as [month|] eqn:Hmonth; [|set_solver].
    apply elem_of_union_list in Hr as (X & HX & Hr).
    apply list_elem_of_fmap in HX as (file & -> & Hf).
    unfold file_records in Hr.
    destruct (Py.endswith file ".parquet") eqn:Hend; [|set_solver].
    apply elem_of_singleton in Hr. simplify_eq.
    exists year_dir, month_dir, file.
    apply elem_of_names in Hf; [|done].
    rewrite <- app_assoc in Hf. by simpl in Hf.
  - intros (year_dir & month_dir & file & Hydir & Hyear & Hmdir & Hmonth & Hf & Hend & ->).
    assert (Fs.isdir root base = true) as Hbase.
    { assert (is_Some (Fs.kind_at (Some root) (base ++ [year_dir]))) as Hk.
      { apply isdir_kind in Hydir. by rewrite Hydir. }
      destruct (kind_prefix root (base ++ [year_dir]) base Hk) as [Heq|Hd].
      - by apply prefix_app_r.
      - apply (f_equal length) in Heq. rewrite length_app in Heq. simpl in Heq. lia.
      - by apply isdir_kind. }
    exists (year_records root base year_dir). split.
    + apply list_elem_of_fmap. exists year_dir. split; [done|].
      apply elem_of_names; [done|].
      apply exists_kind. apply isdir_kind in Hydir. by rewrite Hydir.
    + unfold year_records. rewrite Hydir, Hyear.
      apply elem_of_union_list.
      exists (month_records root y (base ++ [year_dir]) month_dir). split.
      * apply list_elem_of_fmap. exists month_dir. split; [done|].
        apply elem_of_names; [done|]. rewrite <- app_assoc. simpl.
        apply exists_kind. apply isdir_kind in Hmdir. by rewrite Hmdir.
      * unfold month_records. rewrite <- app_assoc. simpl.
        rewrite Hmdir, Hmonth. apply elem_of_union_list.
        exists (file_records y m file). split.
        -- apply list_elem_of_fmap. exists file. split; [done|].
           apply elem_of_names; [done|]. rewrite <- app_assoc. by simpl.
        -- unfold file_records. rewrite Hend. by apply elem_of_singleton.
Qed.



(** * One download *)

Lemma update_kind_at f o p o' k :
  (∀ n r, f n = Return r → Fs.kind_at r [] = k) →
  Fs.update f o p = Return o' →
  Fs.kind_at o' p = k.
Proof.
  intros Hf. revert o o'. induction p as [|x p IH]; intros o o' Hup.
  - simpl in Hup. by eapply Hf.
  - simpl in Hup. destruct o as [[d|es]|]; [done| |done].
    destruct (Fs.update f (es !! x) p) as [c|] eqn:Hc; [|done].
    simplify_eq. rewrite kind_at_cons, lookup_partial_alter_eq. by eapply IH.
Qed.

Lemma update_unlink_file root p :
  p ≠ [] → Fs.isfile root p = true →
  ∃ root', Fs.update Fs.unlink (Some root) p = Return (Some root').
Proof.
  revert root. induction p as [|x p IH]; intros root Hp Hfile; [done|].
  unfold Fs.isfile in Hfile. simpl in Hfile.
  destruct root as [d|es]; [done|]. simpl.
  destruct (es !! x) as [c|] eqn:Hx; [|done].
  destruct p as [|y p].
  - simpl in *. destruct c; [|done]. eauto.
  - destruct (IH c) as [c' Hc']; [done|done|].
    rewrite Hc'. eauto.
Qed.

Lemma fs_update_cases f p w r w' k :
  (∀ n r, f n = Return r → Fs.kind_at r [] = k) →
  fs_update f p w = (r, w') →
  (r = Return tt ∧ Fs.kind_at (Some (w_fs w')) p = k) ∨ (∃ e, r = Raise e ∧ w' = w).
Proof.
  intros Hf. unfold fs_update.
  destruct (Fs.update f (Some (w_fs w)) p) as [[n|]|e] eqn:Hup.
  - intros [= <- <-]. left. split; [done|]. simpl. by eapply update_kind_at.
  - intros [= <- <-]. right. eauto.
  - intros [= <- <-]. right. eauto.
Qed.

Lemma truncate_kind n r : Fs.truncate n = Return r → Fs.kind_at r [] = Some Fs.IsFile.
Proof. destruct n as [[d|es]|]; simpl; intros; by simplify_eq. Qed.

Lemma append_kind chunk n r :
  Fs.append chunk n = Return r → Fs.kind_at r [] = Some Fs.IsFile.
Proof. destruct n as [[d|es]|]; simpl; intros; by simplify_eq. Qed.

Lemma unlink_kind n r : Fs.unlink n = Return r → Fs.kind_at r [] = None.
Proof. destruct n as [[d|es]|]; simpl; intros; by simplify_eq. Qed.

Lemma write_chunk_keeps_file p chunk k w r w' :
  Fs.isfile (w_fs w) p = true →
  write_chunk p chunk k w = (r, w') →
  Fs.isfile (w_fs w') p = true.
Proof.
  intros Hfile. unfold write_chunk. destruct chunk as [|b chunk].
  { rewrite mret_unfold. by intros [= _ <-]. }
  rewrite bind_unfold.
  destruct (f_write p k (b :: chunk) w) as [[[]|e] w1] eqn:Hw.
  - rewrite mret_unfold. intros [= _ <-].
    unfold f_write in Hw.
    assert (fs_update (Fs.append (b :: chunk)) p w = (Return tt, w1)) as Hup.
    { destruct (w_write_limit w p) as [limit|]; [|done].
      by destruct (decide (limit ≤ k)%nat). }
    apply (fs_update_cases _ _ _ _ _ (Some Fs.IsFile)) in Hup
      as [[_ Hk]|(e & ? & _)]; [by apply isfile_kind|done|].
    intros. by eapply append_kind.
  - intros [= _ <-]. unfold f_write in Hw.
    assert (w1 = w) as ->; [|done].
    destruct (w_write_limit w p) as [limit|].
    + destruct (decide (limit ≤ k)%nat); [by simplify_eq|].
      apply (fs_update_cases _ _ _ _ _ (Some Fs.IsFile)) in Hw
        as [[? _]|(? & _ & ?)]; [done|done|].
      intros. by eapply append_kind.
    + apply (fs_update_cases _ _ _ _ _ (Some Fs.IsFile)) in Hw
        as [[? _]|(? & _ & ?)]; [done|done|].
      intros. by eapply append_kind.
Qed.

Lemma write_chunks_keep_file p chunks k w r w' :
  Fs.isfile (w_fs w) p = true →
  for_in chunks (write_chunk p) k w = (r, w') →
  Fs.isfile (w_fs w') p = true.
Proof.
  revert k w. induction chunks as [|chunk chunks IH]; intros k w Hfile.
  { rewrite for_in_nil, mret_unfold. by intros [= _ <-]. }
  rewrite for_in_cons, bind_unfold.
  destruct (write_chunk p chunk k w) as [[k'|e] w1] eqn:Hw.
  - apply IH. by eapply write_chunk_keeps_file.
  - intros [= _ <-]. by eapply write_chunk_keeps_file.
Qed.

(** The [try] block leaves a file at the destination when it returns, and
    never turns the destination into a directory. *)
Lemma download_body_outcome url p w r w' :
  Fs.isdir (w_fs w) p = false →
  (response ← requests_get url;
   raise_for_status response;;
   open_wb p;;
   iter_content response (write_chunk p);;
   mret (p, true)) w = (r, w') →
  Fs.isdir (w_fs w') p = false ∧
  (∀ v, r = Return v → v = (p, true) ∧ Fs.isfile (w_fs w') p = true).
Proof.
  intros Hdir. rewrite bind_unfold. unfold requests_get.
  destruct (w_net w url) as [|code chunks complete] eqn:Hnet.
  { intros [= <- <-]. done. }
  rewrite bind_unfold. unfold raise_for_status.
  destruct (decide (400 ≤ code < 600)).
  { unfold raise. intros [= <- <-]. done. }
  rewrite mret_unfold, bind_unfold.
  destruct (open_wb p w) as [ro w1] eqn:Hopen.
  apply (fs_update_cases _ _ _ _ _ (Some Fs.IsFile)) in Hopen
    as [[-> Hk]|(e & -> & ->)]; [| |intros; by eapply truncate_kind].
  2:{ intros [= <- <-]. done. }
  apply isfile_kind in Hk.
  rewrite bind_unfold. unfold iter_content. rewrite bind_unfold.
  destruct (for_in chunks (write_chunk p) 0%nat w1) as [[k|e] w2] eqn:Hloop.
  - apply write_chunks_keep_file in Hloop; [|done].
    assert (Fs.isdir (w_fs w2) p = false) as Hnd.
    { revert Hloop. unfold Fs.isfile, Fs.isdir.
      by destruct (Fs.node_at (w_fs w2) p) as [[?|?]|]. }
    destruct complete.
    + rewrite !mret_unfold. intros [= <- <-]. split; [done|].
      by intros v [= <-].
    + unfold raise. intros [= <- <-]. done.
  - apply write_chunks_keep_file in Hloop; [|done].
    intros [= <- <-]. split; [|done].
    revert Hloop. unfold Fs.isfile, Fs.isdir.
    by destruct (Fs.node_at (w_fs w2) p) as [[?|?]|].
Qed.

(** A download to a destination that is not a directory always returns its
    pair; after a failure nothing is left at the destination, after a success
    a file is. *)
Lemma download_file_returns url p w :
  p ≠ [] →
  Fs.isdir (w_fs w) p = false →
  ∃ b w',
    download_file url p w = (Return (p, b), w')
    ∧ (b = false → Fs.exists_ (w_fs w') p = false)
    ∧ (b = true → Fs.isfile (w_fs w') p = true).
Proof.
  intros Hp Hdir. unfold download_file, try_except.
  match goal with |- context [match ?body w with _ => _ end] =>
    destruct (body w) as [r w1] eqn:Hbody end.
  apply download_body_outcome in Hbody as [Hdir1 Hret]; [|done].
  destruct r as [v|e].
  { destruct (Hret v eq_refl) as [-> Hfile]. exists true, w1. by split_and!. }
  rewrite bind_unfold. unfold os_path_exists at 1.
  destruct (Fs.exists_ (w_fs w1) p) eqn:Hex; simpl.
  - assert (Fs.isfile (w_fs w1) p = true) as Hfile.
    { revert Hex Hdir1. unfold Fs.exists_, Fs.isfile, Fs.isdir.
      by destruct (Fs.node_at (w_fs w1) p) as [[?|?]|]. }
    destruct (update_unlink_file _ _ Hp Hfile) as [root' Hrm].
    rewrite bind_unfold. unfold os_remove, fs_update. rewrite Hrm.
    rewrite mret_unfold. exists false, (set_fs root' w1). split_and!; [done| |done].
    intros _. apply not_exists_kind. simpl.
    eapply update_kind_at; [|done]. intros. by eapply unlink_kind.
  - rewrite bind_unfold, !mret_unfold. exists false, w1. by split_and!.
Qed.

(** * A whole run *)

Lemma get_existing_downloads_Return base w existing w' :
  get_existing_downloads base w = (Return existing, w') →
  w' = w ∧ existing = scan (w_fs w) base.
Proof.
  destruct (Fs.isfile (w_fs w) base) eqn:Hfile.
  - unfold get_existing_downloads. rewrite bind_unfold.
    unfold os_path_exists at 1, os_listdir, Fs.exists_, Fs.listdir.
    revert Hfile. unfold Fs.isfile.
    destruct (Fs.node_at (w_fs w) base) as [[d|es]|] eqn:Hn; [|done..].
    intros _. simpl. rewrite bind_unfold, Hn. done.
  - rewrite get_existing_downloads_scan by done. by intros [= <- <-].
Qed.

(** Whatever happens, a download that returns, returns its own destination. *)
Lemma download_file_pair url p w v w' :
  download_file url p w = (Return v, w') → ∃ b, v = (p, b).
Proof.
  unfold download_file, try_except.
  match goal with |- context [match ?body w with _ => _ end] =>
    destruct (body w) as [[v1|e] w1] eqn:Hbody end.
  - intros [= <- <-].
    apply bind_Return_inv in Hbody as (? & ? & _ & Hbody).
    apply bind_Return_inv in Hbody as (? & ? & _ & Hbody).
    apply bind_Return_inv in Hbody as (? & ? & _ & Hbody).
    apply bind_Return_inv in Hbody as (? & ? & _ & Hbody).
    rewrite mret_unfold in Hbody. simplify_eq. by exists true.
  - intros Hhandler.
    apply bind_Return_inv in Hhandler as (? & ? & _ & Hhandler).
    apply bind_Return_inv in Hhandler as (? & ? & _ & Hhandler).
    rewrite mret_unfold in Hhandler. simplify_eq. by exists false.
Qed.

(** The pool holds one future per task, in the order of submission; a future
    that holds a value holds the destination of its task and a flag. *)
Lemma submit_all ts w futures w' :
  for_in ts submit [] w = (Return futures, w') →
  futures.*1 = ts ∧
  Forall (λ f : future, ∀ v, f.2 = Return v → ∃ b, v = (f.1.2, b)) futures.
Proof.
  intros Hrun.
  apply (for_in_ind (λ visited (s : list future) _,
           s.*1 = visited ∧
           Forall (λ f : future, ∀ v, f.2 = Return v → ∃ b, v = (f.1.2, b)) s))
    in Hrun; [done|done|].
  intros visited [url p] s1 w1 s2 w2 _ [Hfst Hall] Hsubmit.
  unfold submit, download_worker in Hsubmit.
  destruct (download_file url p w1) as [r w3] eqn:Hd. simplify_eq. split.
  - by rewrite fmap_app.
  - apply Forall_app. split; [done|]. apply Forall_singleton.
    intros v Hv. simpl in Hv. subst r. simpl. by eapply download_file_pair.
Qed.

(** The counting loop ends only if every future it reads holds a value. *)
Lemma tally_loop_returned futures counts w counts' w' :
  for_in futures tally counts w = (Return counts', w') →
  Forall returned futures.
Proof.
  revert counts w. induction futures as [|f futures IH]; intros counts w Hrun.
  { constructor. }
  rewrite for_in_cons in Hrun.
  apply bind_Return_inv in Hrun as (c1 & w1 & Htally & Hrest).
  constructor; [|by eapply IH].
  unfold tally in Htally. destruct counts as [successful failed].
  apply bind_Return_inv in Htally as (v & w2 & Hres & _).
  unfold future_result in Hres. exists v. by simplify_eq.
Qed.

(** A run that completes has gone through the stages of [observe_run], and
    every future of its pool held a value. *)
Lemma scrape_taxi_data_completes start_year end_year data_type max_workers w w' :
  scrape_taxi_data start_year end_year data_type max_workers w = (Return tt, w') →
  ∃ existing ts futures w'',
    observe_run start_year end_year data_type max_workers w
      = (Return (existing, ts, futures), w'')
    ∧ Forall returned futures.
Proof.
  unfold scrape_taxi_data, observe_run. intros Hrun.
  apply bind_Return_inv in Hrun as ([] & w1 & Hmk & Hrun).
  apply bind_Return_inv in Hrun as (existing & w2 & Hscan & Hrun).
  apply bind_Return_inv in Hrun as (ts & w3 & Hplan & Hrun).
  rewrite (bind_Return _ _ _ _ _ Hmk), (bind_Return _ _ _ _ _ Hscan),
    (bind_Return _ _ _ _ _ Hplan).
  destruct ts as [|t ts].
  { exists existing, [], [], w3. by rewrite mret_unfold. }
  apply bind_Return_inv in Hrun as ([] & w4 & Hprint & Hrun).
  apply bind_Return_inv in Hrun as ([successful failed] & w5 & Hpool & _).
  rewrite (bind_Return _ _ _ _ _ Hprint).
  unfold run_downloads in Hpool.
  apply bind_Return_inv in Hpool as ([] & w6 & Hexec & Hpool).
  apply bind_Return_inv in Hpool as (futures & w7 & Hsubmit & Hpool).
  apply bind_Return_inv in Hpool as (completed & w8 & Hdone & Hcount).
  rewrite (bind_Return _ _ _ _ _ Hexec), (bind_Return _ _ _ _ _ Hsubmit).
  exists existing, (t :: ts), futures, w7. split; [by rewrite mret_unfold|].
  apply tally_loop_returned in Hcount.
  unfold as_completed in Hdone. simplify_eq.
  by rewrite merge_sort_Permutation in Hcount.
Qed.

Lemma NoDup_fst_functional {A B} (l : list (A * B)) x y1 y2 :
  NoDup (l.*1) → (x, y1) ∈ l → (x, y2) ∈ l → y1 = y2.
Proof.
  induction l as [|[a b] l IH]; simpl; intros Hnd H1 H2.
  { by apply elem_of_nil in H1. }
  apply NoDup_cons in Hnd as [Hnotin Hnd].
  apply elem_of_cons in H1 as [H1|H1]; apply elem_of_cons in H2 as [H2|H2].
  - by simplify_eq.
  - simplify_eq. destruct Hnotin. apply list_elem_of_fmap. by exists (a, y2).
  - simplify_eq. destruct Hnotin. apply list_elem_of_fmap. by exists (a, y1).
  - by apply IH.
Qed.

(** In a pool whose futures all hold values, a task was submitted if and
    only if its download ended, with one flag or the other. *)
Lemma submitted_ended ts (futures : list future) data_type year month :
  futures.*1 = ts →
  Forall (λ f : future, ∀ v, f.2 = Return v → ∃ b, v = (f.1.2, b)) futures →
  Forall returned futures →
  task_for data_type year month ∈ ts ↔
  ended true futures data_type year month ∨ ended false futures data_type year month.
Proof.
  intros <- Hpair Hret. unfold ended. split.
  - intros ([t r] & Ht & Hin)%list_elem_of_fmap. simpl in Ht. subst t.
    rewrite Forall_forall in Hpair, Hret.
    destruct (Hret _ Hin) as [v Hv]. simpl in Hv. subst r.
    destruct (Hpair _ Hin v eq_refl) as [[|] Hv]; simpl in Hv; subst v;
      [by left|by right].
  - intros [Hin|Hin]; apply list_elem_of_fmap; eexists; (split; [|exact Hin]); done.
Qed.

(** C1, as the script has it.  In a run that completes, under a clock that
    stands still, a (year, month) of the requested range that is not in the
    future is either in the existing set or was submitted as a task, whose
    download then succeeded or failed; conversely every submitted task is for
    such a (year, month), outside the existing set; and no download both
    succeeds and fails.  So the part of the existing set that lies in the
    grid, the successful downloads and the failed downloads together make up
    the grid without its future months. *)
Theorem run_covers_grid start_year end_year data_type max_workers now w w' :
  clock_at now w →
  scrape_taxi_data start_year end_year data_type max_workers w = (Return tt, w') →
  ∃ existing ts futures w'',
    observe_run start_year end_year data_type max_workers w
      = (Return (existing, ts, futures), w'')
    ∧ (∀ year month,
         in_grid start_year end_year now year month ↔
         ((data_type, year, month) ∈ existing ∧
          in_grid start_year end_year now year month)
         ∨ ended true futures data_type year month
         ∨ ended false futures data_type year month)
    ∧ (∀ year month success,
         ended success futures data_type year month →
         (data_type, year, month) ∉ existing)
    ∧ (∀ year month,
         ¬ (ended true futures data_type year month ∧
            ended false futures data_type year month)).
Proof.
  intros Hclock Hrun.
  destruct (scrape_taxi_data_completes _ _ _ _ _ _ Hrun)
    as (existing & ts & futures & w'' & Hobs & Hret).
  exists existing, ts, futures, w''. split; [done|].
  unfold observe_run in Hobs.
  apply bind_Return_inv in Hobs as ([] & w1 & Hmk & Hobs).
  apply bind_Return_inv in Hobs as (existing0 & w2 & Hscan & Hobs).
  apply get_existing_downloads_Return in Hscan as [-> _].
  apply bind_Return_inv in Hobs as (ts0 & w3 & Hplan & Hobs).
  assert (clock_at now w1) as Hclock1.
  { intros n. apply create_directory_structure_clock in Hmk.
    rewrite Hmk. apply Hclock. }
  assert (existing0 = existing ∧ ts0 = ts ∧ futures.*1 = ts ∧
          Forall (λ f : future, ∀ v, f.2 = Return v → ∃ b, v = (f.1.2, b)) futures)
    as (-> & -> & Hfst & Hpair).
  { destruct ts0 as [|t ts0].
    - rewrite mret_unfold in Hobs. by simplify_eq.
    - apply bind_Return_inv in Hobs as ([] & w4 & _ & Hobs).
      apply bind_Return_inv in Hobs as ([] & w5 & _ & Hobs).
      apply bind_Return_inv in Hobs as (futures0 & w6 & Hsubmit & Hobs).
      rewrite mret_unfold in Hobs. simplify_eq.
      apply submit_all in Hsubmit as [? ?]. done. }
  pose proof (λ year month,
    prepare_download_tasks_elem _ _ _ _ now _ _ _ year month Hclock1 Hplan) as Htask.
  pose proof (λ year month,
    submitted_ended ts futures data_type year month Hfst Hpair Hret) as Hend.
  assert (∀ year month success,
            ended success futures data_type year month →
            task_for data_type year month ∈ ts) as Hsub.
  { intros year month [|] Hin; apply Hend; [by left|by right]. }
  split_and!.
  - intros year month. split.
    + intros Hgrid.
      destruct (decide ((data_type, year, month) ∈ existing)) as [Hin|Hin];
        [by left|right].
      apply Hend, Htask. destruct Hgrid as (Hy & Hm & Hfuture).
      split; [lia|]. split; [done|]. split; [|done].
      intros [? ?]. apply Hfuture. by right.
    + intros [[_ Hgrid]|Hin]; [done|].
      assert (task_for data_type year month ∈ ts) as Ht by (by apply Hend).
      apply Htask in Ht as (Hy & Hm & Hfuture & _).
      split; [lia|]. split; [done|].
      intros [Hgt|Hcur]; [lia|by apply Hfuture].
  - intros year month success Hin%Hsub. by apply Htask in Hin as (_ & _ & _ & ?).
  - intros year month [Ht Hf]. unfold ended in Ht, Hf.
    assert (NoDup (futures.*1)) as Hnd.
    { rewrite Hfst. apply (NoDup_fmap_1 snd).
      by eapply prepare_download_tasks_NoDup. }
    pose proof (NoDup_fst_functional _ _ _ _ Hnd Ht Hf). by simplify_eq.
Qed.

(** * The planner returns *)

Lemma create_keeps_dir p w w' q :
  create_directory_structure p w = (Return tt, w') →
  Fs.isdir (w_fs w) q = true → Fs.isdir (w_fs w') q = true.
Proof.
  intros Hmk Hdir%isdir_kind. apply isdir_kind.
  by rewrite (create_directory_structure_Return _ _ _ Hmk), Hdir.
Qed.

Lemma create_keeps_no_file p w w' q :
  create_directory_structure p w = (Return tt, w') →
  Fs.isfile (w_fs w) q = false → Fs.isfile (w_fs w') q = false.
Proof.
  intros Hmk Hfile. apply not_true_is_false. intros Hfile'%isfile_kind.
  rewrite (create_directory_structure_Return _ _ _ Hmk) in Hfile'.
  destruct (Fs.kind_at (Some (w_fs w)) q) as [k|] eqn:Hk; simpl in Hfile'.
  - simplify_eq. apply isfile_kind in Hk. congruence.
  - by case_bool_decide.
Qed.

Lemma create_makes_dir p w w' :
  create_directory_structure p w = (Return tt, w') →
  Fs.isfile (w_fs w) p = false → Fs.isdir (w_fs w') p = true.
Proof.
  intros Hmk Hfile. apply isdir_kind.
  rewrite (create_directory_structure_Return _ _ _ Hmk).
  rewrite bool_decide_eq_true_2 by done.
  destruct (Fs.kind_at (Some (w_fs w)) p) as [[|]|] eqn:Hk; [|done..].
  apply isfile_kind in Hk. congruence.
Qed.

(** The planner returns when the base path is a directory and no file stands
    where a year directory belongs. *)
Lemma prepare_download_tasks_returns start_year end_year data_type existing w :
  Fs.isdir (w_fs w) base_path = true →
  (∀ year, Fs.isfile (w_fs w) (year_path year) = false) →
  ∃ ts w', prepare_download_tasks start_year end_year data_type existing w
           = (Return ts, w').
Proof.
  intros Hbase Hyears. unfold prepare_download_tasks.
  rewrite bind_unfold. unfold datetime_now at 1.
  set (current_year := dt_year (w_clock w (w_tick w))).
  set (ok := λ w1 : world,
         Fs.isdir (w_fs w1) base_path = true ∧
         ∀ year, Fs.isfile (w_fs w1) (year_path year) = false).
  destruct (for_in_returns (λ _ w1, ok w1)
              (range start_year (Z.min end_year current_year + 1))
              (plan_year data_type existing current_year) []
              (set_tick (S (w_tick w)) w))
    as (ts & w' & Hrun & _); [done| |by eauto].
  intros year s1 w1 _ [Hb1 Hy1]. unfold plan_year.
  destruct (create_directory_structure_child base_path (Py.str year) w1 Hb1)
    as [w2 Hmk].
  change (base_path ++ [Py.str year]) with (year_path year) in Hmk.
  rewrite (bind_Return _ _ _ _ _ Hmk).
  assert (ok w2 ∧ Fs.isdir (w_fs w2) (year_path year) = true) as Hok2.
  { unfold ok. split_and!.
    - by eapply create_keeps_dir.
    - intros y. by eapply create_keeps_no_file.
    - by eapply create_makes_dir. }
  destruct (for_in_returns
              (λ _ w3, ok w3 ∧ Fs.isdir (w_fs w3) (year_path year) = true)
              (range 1 13)
              (plan_month data_type existing current_year year) s1 w2)
    as (s2 & w3 & Hloop & Hok3 & _); [done| |by eauto].
  intros month s3 w3 _ [[Hb3 Hy3] Hd3]. unfold plan_month.
  assert (∃ (future : bool) w4,
            (if decide (year = current_year)
             then now ← datetime_now; mret (bool_decide (month > dt_month now))
             else mret false) w3 = (Return future, w4)
            ∧ w_fs w4 = w_fs w3) as (future & w4 & Hfut & Hfs).
  { destruct (decide (year = current_year)); eexists _, _; split; reflexivity. }
  rewrite (bind_Return _ _ _ _ _ Hfut).
  destruct future; [eexists _, _; split; [reflexivity|]; unfold ok; by rewrite Hfs|].
  destruct (decide ((data_type, year, month) ∈ existing));
    [eexists _, _; split; [reflexivity|]; unfold ok; by rewrite Hfs|].
  destruct (create_directory_structure_child (year_path year) (month_str month) w4)
    as [w5 Hmk5]; [by rewrite Hfs|].
  change (year_path year ++ [month_str month]) with (month_path year month) in Hmk5.
  rewrite (bind_Return _ _ _ _ _ Hmk5).
  eexists _, _. split; [reflexivity|]. rewrite <- Hfs in Hb3, Hy3, Hd3.
  unfold ok. split_and!.
  - by eapply create_keeps_dir.
  - intros y. by eapply create_keeps_no_file.
  - by eapply create_keeps_dir.
Qed.

(** * The theorems at work *)

Lemma march_2023_stands_still root net : clock_at march_2023 (world_of root net).
Proof. by intros n. Qed.

(** A data file named for January 2020 and stored under 2021/05 is recorded
    for May 2021, and for nothing else. *)
Example misfiled_record :
  elements (scan misfiled_disk base_path) = [("yellow", 2021, 5)].
Proof. by vm_compute. Qed.




Lemma planner_idempotent_witness :
  ∃ w2', prepare_download_tasks 2023 2023 "yellow" first_quarter
           (world_of base_disk server_up) = (Return [], w2').
Proof.
  assert (∃ w1,
            prepare_download_tasks 2023 2023 "yellow" ∅ (world_of (Dir ∅) server_up)
            = (Return (task_of "yellow" <$> [(2023, 1); (2023, 2); (2023, 3)]), w1))
    as [w1 Hrun].
  { eexists. vm_compute. reflexivity. }
  apply (planner_idempotent 2023 2023 "yellow" ∅ first_quarter march_2023
           (world_of (Dir ∅) server_up) _ w1 (world_of base_disk server_up)
           (march_2023_stands_still _ _) Hrun).
  - apply empty_subseteq.
  - intros year month Hin. apply elem_of_tasks in Hin.
    + unfold first_quarter. set_solver.
    + repeat constructor; simpl; lia.
  - apply march_2023_stands_still.
  - by vm_compute.
Defined.

Lemma planner_paths_disjoint_witness :
  ∃ ts w',
    prepare_download_tasks 2023 2023 "yellow" ∅ (world_of (Dir ∅) server_up)
      = (Return ts, w')
    ∧ length ts = 3%nat
    ∧ NoDup (ts.*2).
Proof.
  assert (∃ ts w',
            prepare_download_tasks 2023 2023 "yellow" ∅ (world_of (Dir ∅) server_up)
              = (Return ts, w')
            ∧ length ts = 3%nat) as (ts & w' & Hrun & Hlen).
  { eexists _, _. split; vm_compute; reflexivity. }
  exists ts, w'. split_and!; [done..|].
  exact (planner_paths_disjoint _ _ _ _ _ _ _ Hrun).
Defined.

(** Every month of the year is already there: no task, no month directory,
    and yet the year directory is made. *)
Lemma planner_directories_witness :
  ∃ w',
    prepare_download_tasks 2023 2023 "yellow" first_quarter
      (world_of base_disk server_up) = (Return [], w')
    ∧ Fs.exists_ base_disk (year_path 2023) = false
    ∧ Fs.isdir (w_fs w') (year_path 2023) = true
    ∧ Fs.exists_ (w_fs w') (month_path 2023 1) = false.
Proof.
  assert (∃ w', prepare_download_tasks 2023 2023 "yellow" first_quarter
                  (world_of base_disk server_up) = (Return [], w'))
    as [w' Hrun].
  { eexists. vm_compute. reflexivity. }
  destruct (planner_directories _ _ _ _ _ _ _ Hrun) as (Hyears & Hmonths & _).
  exists w'. split_and!; [done|by vm_compute| |].
  - apply (Hyears 2023); [by vm_compute|by vm_compute].
  - destruct (Fs.exists_ (w_fs w') (month_path 2023 1)) eqn:Hex; [|done].
    apply (Hmonths 2023 1) in Hex; [|by vm_compute].
    by apply elem_of_nil in Hex.
Defined.

Lemma run_covers_grid_witness :
  ∃ existing ts futures w'',
    observe_run 2023 2023 "yellow" 4 (world_of (Dir ∅) server_up)
      = (Return (existing, ts, futures), w'')
    ∧ (∀ year month,
         in_grid 2023 2023 march_2023 year month ↔
         (("yellow", year, month) ∈ existing ∧ in_grid 2023 2023 march_2023 year month)
         ∨ ended true futures "yellow" year month
         ∨ ended false futures "yellow" year month)
    ∧ (∀ year month success,
         ended success futures "yellow" year month →
         ("yellow", year, month) ∉ existing)
    ∧ (∀ year month,
         ¬ (ended true futures "yellow" year month ∧
            ended false futures "yellow" year month)).
Proof.
  assert (∃ w', scrape_taxi_data 2023 2023 "yellow" 4 (world_of (Dir ∅) server_up)
                = (Return tt, w')) as [w' Hrun].
  { eexists. vm_compute. reflexivity. }
  exact (run_covers_grid 2023 2023 "yellow" 4 march_2023 _ w'
           (march_2023_stands_still _ _) Hrun).
Defined.

(** C1 as stated fails twice over.  When the server is down the run still
    completes, with every download failed, and the months of the grid are in
    neither the existing set nor the successful downloads.  And when the disk
    holds a data file outside the requested range, its record is in the
    existing set, hence in the union, but not in the grid. *)
Lemma run_union_counterexample :
  (∃ w' existing ts futures w'',
     scrape_taxi_data 2023 2023 "yellow" 4 (world_of (Dir ∅) server_down)
       = (Return tt, w')
     ∧ observe_run 2023 2023 "yellow" 4 (world_of (Dir ∅) server_down)
       = (Return (existing, ts, futures), w'')
     ∧ ¬ union_is_grid 2023 2023 "yellow" march_2023 existing futures)
  ∧ (∃ w' existing ts futures w'',
       scrape_taxi_data 2023 2023 "yellow" 4 (world_of misfiled_disk server_up)
         = (Return tt, w')
       ∧ observe_run 2023 2023 "yellow" 4 (world_of misfiled_disk server_up)
         = (Return (existing, ts, futures), w'')
       ∧ ¬ union_is_grid 2023 2023 "yellow" march_2023 existing futures).
Proof.
  split.
  - eexists. exists ∅. eexists _, _, _.
    split; [vm_compute; reflexivity|]. split; [vm_compute; reflexivity|].
    intros Hclaim. destruct (Hclaim ("yellow", 2023, 1)) as [_ Hunion].
    destruct Hunion as [Hin|(year & month & Heq & Hin)].
    + exists 2023, 1. split; [done|]. unfold in_grid, march_2023. simpl. lia.
    + by apply not_elem_of_empty in Hin.
    + simplify_eq. unfold ended in Hin.
      apply list_elem_of_In in Hin. vm_compute in Hin.
      by destruct_or!; simplify_eq.
  - eexists. exists {[ ("yellow", 2021, 5) ]}. eexists _, _, _.
    split; [vm_compute; reflexivity|]. split; [vm_compute; reflexivity|].
    intros Hclaim. destruct (Hclaim ("yellow", 2021, 5)) as [Hgrid _].
    destruct Hgrid as (year & month & Heq & Hy & _).
    + left. by apply elem_of_singleton.
    + simplify_eq. lia.
Qed.

(** * A destination that is a directory *)


(** * The scenarios of the specification, run *)

(** Empty base path, 2023 only, the clock in March: three tasks, for January,
    February and March, and with every download a success the script prints
    3 and 0. *)
Example three_months_planned :
  (prepare_download_tasks 2023 2023 "yellow" ∅ (world_of (Dir ∅) server_up)).1
  = Return [task_for "yellow" 2023 1; task_for "yellow" 2023 2;
            task_for "yellow" 2023 3].
Proof. by vm_compute. Qed.

Example three_successes_reported :
  w_stdout (scrape_taxi_data 2023 2023 "yellow" 4 (world_of (Dir ∅) server_up)).2
  = ["Found 3 files to download"; newline +:+ "Download complete:";
     "Successfully downloaded: 3"; "Failed downloads: 0"].
Proof. by vm_compute. Qed.

(** January already on disk: two tasks. *)
Example january_skipped :
  (prepare_download_tasks 2023 2023 "yellow" (scan january_disk base_path)
     (world_of january_disk server_up)).1
  = Return [task_for "yellow" 2023 2; task_for "yellow" 2023 3].
Proof. by vm_compute. Qed.

(** One download of three fails: the script prints 2 and 1, and nothing is
    left at the destination of the failed one. *)
Example one_failure_reported :
  let w' := (scrape_taxi_data 2023 2023 "yellow" 4
               (world_of (Dir ∅) server_without_february)).2 in
  w_stdout w'
  = ["Found 3 files to download"; newline +:+ "Download complete:";
     "Successfully downloaded: 2"; "Failed downloads: 1"]
  ∧ Fs.exists_ (w_fs w') (task_for "yellow" 2023 2).2 = false
  ∧ Fs.isfile (w_fs w') (task_for "yellow" 2023 1).2 = true.
Proof. by vm_compute. Qed.

(** A second run after a run in which every download succeeded finds
    nothing to do. *)
Example second_run_has_nothing_to_do :
  let w' := (scrape_taxi_data 2023 2023 "yellow" 4 (world_of (Dir ∅) server_up)).2 in
  w_stdout (scrape_taxi_data 2023 2023 "yellow" 4 (set_stdout [] w')).2
  = ["All yellow taxi data files for the specified period already exist."].
Proof. by vm_compute. Qed.

(** A pool without workers is refused, and nothing is downloaded. *)
Example no_workers_refused :
  (scrape_taxi_data 2023 2023 "yellow" 0 (world_of base_disk server_up)).1
  = Raise ValueError.
Proof. by vm_compute. Qed.

(** * More of the file system: updates in place *)

#[global] Arguments entry_at : simpl never.

Lemma entry_at_cons es x q :
  entry_at (Some (Dir es)) (x :: q) = entry_at (es !! x) q.
Proof. unfold entry_at. simpl. by destruct (es !! x). Qed.

Lemma entry_at_kind o q :
  Fs.kind_at o q =
  (λ e : entry, match e with Some _ => Fs.IsFile | None => Fs.IsDir end) <$> entry_at o q.
Proof.
  unfold Fs.kind_at, entry_at. destruct o as [n|]; [|done].
  by destruct (Fs.node_at n q) as [[d|es]|].
Qed.

Lemma read_file_entry root p d :
  read_file root p = Some d ↔ entry_at (Some root) p = Some (Some d).
Proof.
  unfold read_file, entry_at.
  destruct (Fs.node_at root p) as [[d'|es]|]; simpl; split; intros; by simplify_eq.
Qed.

(** An update at [p] whose function neither takes nor gives a directory
    changes no other entry. *)
Lemma update_frame f o p o' q :
  (∀ n r, f n = Return r →
          entry_at n [] ≠ Some None ∧ entry_at r [] ≠ Some None) →
  Fs.update f o p = Return o' →
  q ≠ p →
  entry_at o' q = entry_at o q.
Proof.
  intros Hf. revert o o' q. induction p as [|x p IH]; intros o o' q Hup Hne.
  - destruct q as [|y q]; [done|]. simpl in Hup.
    destruct (Hf _ _ Hup) as [Hn Hr].
    assert (∀ n : option node, entry_at n [] ≠ Some None → entry_at n (y :: q) = None)
      as Hflat.
    { intros [[d|es]|] Hd; [done| |done]. by destruct Hd. }
    by rewrite !Hflat.
  - simpl in Hup. destruct o as [[d|es]|]; [done| |done].
    destruct (Fs.update f (es !! x) p) as [c|] eqn:Hc; [|done]. simplify_eq.
    destruct q as [|y q]; [done|].
    rewrite !entry_at_cons. destruct (decide (y = x)) as [->|Hyx].
    + rewrite lookup_partial_alter_eq. apply (IH _ _ _ Hc). congruence.
    + by rewrite lookup_partial_alter_ne.
Qed.

(** What an update at [p] finds there and what it leaves there. *)
Lemma update_at f o p o' :
  Fs.update f o p = Return o' →
  ∃ r, f (o ≫= λ n, Fs.node_at n p) = Return r ∧ (o' ≫= λ n, Fs.node_at n p) = r.
Proof.
  revert o o'. induction p as [|x p IH]; intros o o' Hup.
  - simpl in Hup. exists o'. split; [by destruct o|by destruct o'].
  - simpl in Hup. destruct o as [[d|es]|]; [done| |done].
    destruct (Fs.update f (es !! x) p) as [c|] eqn:Hc; [|done]. simplify_eq.
    destruct (IH _ _ Hc) as (r & Hf & Hr). exists r. simpl.
    rewrite lookup_partial_alter_eq. split.
    + by destruct (es !! x).
    + by destruct c.
Qed.

(** An update of an entry of an existing directory goes through whenever
    its function does. *)
Lemma update_child f root dir name es r :
  Fs.node_at root dir = Some (Dir es) →
  f (es !! name) = Return r →
  ∃ root', Fs.update f (Some root) (dir ++ [name]) = Return (Some root').
Proof.
  revert root. induction dir as [|x dir IH]; intros root Hdir Hf.
  - simpl in Hdir. simplify_eq. simpl. rewrite Hf. eauto.
  - simpl in Hdir. destruct root as [d|es']; [done|].
    destruct (es' !! x) as [c|] eqn:Hx; [|done].
    destruct (IH c Hdir Hf) as [c' Hc'].
    simpl. rewrite Hx, Hc'. eauto.
Qed.

Lemma truncate_flat n r :
  Fs.truncate n = Return r → entry_at n [] ≠ Some None ∧ entry_at r [] ≠ Some None.
Proof. destruct n as [[d|es]|]; simpl; intros; by simplify_eq. Qed.

Lemma append_flat chunk n r :
  Fs.append chunk n = Return r →
  entry_at n [] ≠ Some None ∧ entry_at r [] ≠ Some None.
Proof. destruct n as [[d|es]|]; simpl; intros; by simplify_eq. Qed.

Lemma unlink_flat n r :
  Fs.unlink n = Return r → entry_at n [] ≠ Some None ∧ entry_at r [] ≠ Some None.
Proof. destruct n as [[d|es]|]; simpl; intros; by simplify_eq. Qed.

(** * What every outcome keeps *)

Lemma same_but_disk_refl w : same_but_disk w w.
Proof. by destruct w. Qed.

Lemma same_but_disk_trans w1 w2 w3 :
  same_but_disk w1 w2 → same_but_disk w2 w3 → same_but_disk w1 w3.
Proof. unfold same_but_disk. intros H12 H23. rewrite H23, H12. by destruct w1. Qed.

#[global] Instance touches_only_preorder p : PreOrder (touches_only p).
Proof.
  split.
  - intros w. split; [apply same_but_disk_refl|done].
  - intros w1 w2 w3 [Hs12 Hq12] [Hs23 Hq23]. split.
    + by eapply same_but_disk_trans.
    + intros q Hq. by rewrite Hq23, Hq12.
Qed.

Section always.
Context (R : world → world → Prop) `{!PreOrder R}.

Lemma always_mret {A} (a : A) : always R (mret a).
Proof. intros w r w'. rewrite mret_unfold. by intros [= _ <-]. Qed.

Lemma always_raise {A} e : always R (raise (A := A) e).
Proof. intros w r w'. unfold raise. by intros [= _ <-]. Qed.

Lemma always_bind {A B} (m : M A) (f : A → M B) :
  always R m → (∀ a, always R (f a)) → always R (m ≫= f).
Proof.
  intros Hm Hf w r w'. rewrite bind_unfold.
  destruct (m w) as [[a|e] w1] eqn:Hmw.
  - intros Hfa. etrans; [by eapply Hm|by eapply Hf].
  - intros [= _ <-]. by eapply Hm.
Qed.

Lemma always_try_except {A} (body : M A) (handler : exn → M A) :
  always R body → (∀ e, always R (handler e)) → always R (try_except body handler).
Proof.
  intros Hb Hh w r w'. unfold try_except.
  destruct (body w) as [[a|e] w1] eqn:Hbw.
  - intros [= _ <-]. by eapply Hb.
  - intros He. etrans; [by eapply Hb|by eapply Hh].
Qed.

Lemma always_for_in {A S} (l : list A) (body : A → S → M S) s :
  (∀ x s1, always R (body x s1)) → always R (for_in l body s).
Proof.
  intros Hbody. revert s. induction l as [|x l IH]; intros s.
  - rewrite for_in_nil. apply always_mret.
  - rewrite for_in_cons. by apply always_bind.
Qed.
End always.

(** * A download and the rest of the disk *)

Lemma fs_update_touches f p :
  (∀ n r, f n = Return r →
          entry_at n [] ≠ Some None ∧ entry_at r [] ≠ Some None) →
  always (touches_only p) (fs_update f p).
Proof.
  intros Hf w r w'. unfold fs_update.
  destruct (Fs.update f (Some (w_fs w)) p) as [[n|]|e] eqn:Hup;
    intros [= _ <-]; try reflexivity.
  split.
  - unfold same_but_disk. by destruct w.
  - intros q Hq. simpl. by eapply update_frame.
Qed.

Lemma f_write_touches p k chunk : always (touches_only p) (f_write p k chunk).
Proof.
  intros w r w'. unfold f_write.
  destruct (w_write_limit w p) as [limit|].
  - destruct (decide (limit ≤ k)%nat).
    + intros [= _ <-]. reflexivity.
    + apply fs_update_touches, append_flat.
  - apply fs_update_touches, append_flat.
Qed.

Lemma download_file_touches url p : always (touches_only p) (download_file url p).
Proof.
  unfold download_file. apply always_try_except; [apply _| |].
  - apply always_bind; [apply _| |].
    { intros w r w'. unfold requests_get.
      destruct (w_net w url); intros [= _ <-]; reflexivity. }
    intros response. apply always_bind; [apply _| |].
    { unfold raise_for_status. destruct response as [|code chunks complete].
      - apply always_raise, _.
      - destruct (decide (400 ≤ code < 600));
          [apply always_raise, _|apply always_mret, _]. }
    intros []. apply always_bind; [apply _| |].
    { apply fs_update_touches, truncate_flat. }
    intros []. apply always_bind; [apply _| |intros; apply always_mret, _].
    unfold iter_content. destruct response as [|code chunks complete].
    { apply always_raise, _. }
    apply always_bind; [apply _| |].
    + apply always_for_in; [apply _|]. intros chunk k.
      unfold write_chunk. destruct chunk; [apply always_mret, _|].
      apply always_bind; [apply _|apply f_write_touches|].
      intros. apply always_mret, _.
    + intros k. destruct complete; [apply always_mret, _|apply always_raise, _].
  - intros e. apply always_bind; [apply _| |].
    { intros w r w'. unfold os_path_exists. intros [= _ <-]. reflexivity. }
    intros ex. apply always_bind; [apply _| |intros; apply always_mret, _].
    destruct ex; [|apply always_mret, _].
    apply fs_update_touches, unlink_flat.
Qed.

(** X2. Whatever a download does, returning a pair or raising, it changes
    nothing of the world but the disk, and on the disk nothing but what sits
    at its own destination: every other path holds the directory or the file,
    with the same bytes, that it held before. *)
Theorem download_file_frame url p w r w' :
  download_file url p w = (r, w') →
  w' = set_fs (w_fs w') w
  ∧ ∀ q, q ≠ p →
      Fs.exists_ (w_fs w') q = Fs.exists_ (w_fs w) q
      ∧ Fs.isdir (w_fs w') q = Fs.isdir (w_fs w) q
      ∧ read_file (w_fs w') q = read_file (w_fs w) q.
Proof.
  intros [Hsame Hframe]%download_file_touches. split; [done|].
  intros q Hq. specialize (Hframe q Hq). revert Hframe.
  unfold entry_at, Fs.exists_, Fs.isdir, read_file. simpl.
  destruct (Fs.node_at (w_fs w') q) as [[d'|es']|],
           (Fs.node_at (w_fs w) q) as [[d|es]|]; simpl; intros; by simplify_eq.
Qed.

Lemma download_file_frame_witness :
  ∃ w',
    download_file "u" ["data"; "new.parquet"] (world_of january_disk server_up)
      = (Return (["data"; "new.parquet"], true), w')
    ∧ read_file (w_fs w') (task_for "yellow" 2023 1).2 = Some []
    ∧ Fs.isdir (w_fs w') base_path = true.
Proof.
  assert (∃ w',
            download_file "u" ["data"; "new.parquet"] (world_of january_disk server_up)
            = (Return (["data"; "new.parquet"], true), w')) as [w' Hrun].
  { eexists. vm_compute. reflexivity. }
  destruct (download_file_frame _ _ _ _ _ Hrun) as [_ Hframe].
  exists w'. split_and!; [done| |].
  - destruct (Hframe (task_for "yellow" 2023 1).2) as (_ & _ & ->); by vm_compute.
  - destruct (Hframe base_path) as (_ & -> & _); by vm_compute.
Defined.

(** * What a download leaves at its destination *)

(** X1. A download to a destination that is not a directory never raises: it
    returns its destination with a flag; when the flag is false nothing is
    left at the destination, and when it is true a file is there. *)
Theorem download_file_outcome url p w :
  p ≠ [] →
  Fs.isdir (w_fs w) p = false →
  ∃ b w',
    download_file url p w = (Return (p, b), w')
    ∧ (b = false → Fs.exists_ (w_fs w') p = false)
    ∧ (b = true → Fs.isfile (w_fs w') p = true).
Proof. apply download_file_returns. Qed.

Lemma download_file_outcome_witness :
  ∃ b w',
    download_file "u" ["data"; "new.parquet"] (world_of january_disk server_down)
      = (Return (["data"; "new.parquet"], b), w')
    ∧ (b = false → Fs.exists_ (w_fs w') ["data"; "new.parquet"] = false)
    ∧ (b = true → Fs.isfile (w_fs w') ["data"; "new.parquet"] = true).
Proof.
  apply (download_file_outcome "u" ["data"; "new.parquet"]
           (world_of january_disk server_down)); by vm_compute.
Defined.

Lemma node_at_cons es x q :
  Fs.node_at (Dir es) (x :: q) = es !! x ≫= λ c, Fs.node_at c q.
Proof. simpl. by destruct (es !! x). Qed.

(** An update of an entry that is there goes through whenever its function
    does. *)
Lemma update_existing f root p n r :
  p ≠ [] →
  Fs.node_at root p = Some n →
  f (Some n) = Return r →
  ∃ root', Fs.update f (Some root) p = Return (Some root')
           ∧ Fs.node_at root' p = r.
Proof.
  revert root. induction p as [|x p IH]; intros root Hp Hn Hf; [done|].
  destruct root as [d|es]; [done|]. rewrite node_at_cons in Hn.
  destruct (es !! x) as [c|] eqn:Hx; [|done]. simpl in Hn.
  destruct p as [|y p].
  - simpl in Hn. simplify_eq. simpl. rewrite Hx, Hf. eexists. split; [done|].
    simpl. rewrite lookup_partial_alter_eq. by destruct r.
  - destruct (IH c) as (c' & Hc' & Hr); [done|done|done|].
    change (Fs.update f (Some (Dir es)) (x :: y :: p))
      with (match Fs.update f (es !! x) (y :: p) with
            | Return c0 => Return (Some (Dir (partial_alter (λ _, c0) x es)))
            | Raise e => Raise e
            end).
    rewrite Hx, Hc'. eexists. split; [done|].
    by rewrite node_at_cons, lookup_partial_alter_eq.
Qed.

Lemma write_chunks_content p chunks k w d :
  p ≠ [] →
  w_write_limit w p = None →
  Fs.node_at (w_fs w) p = Some (File d) →
  ∃ k' w',
    for_in chunks (write_chunk p) k w = (Return k', w')
    ∧ Fs.node_at (w_fs w') p = Some (File (d ++ concat chunks)).
Proof.
  intros Hp. revert k w d.
  induction chunks as [|chunk chunks IH]; intros k w d Hlimit Hfile.
  { exists k, w. rewrite for_in_nil, mret_unfold. simpl. by rewrite app_nil_r. }
  rewrite for_in_cons.
  assert (∃ k1 w1,
            write_chunk p chunk k w = (Return k1, w1)
            ∧ w_write_limit w1 p = None
            ∧ Fs.node_at (w_fs w1) p = Some (File (d ++ chunk)))
    as (k1 & w1 & Hw & Hlimit1 & Hfile1).
  { unfold write_chunk. destruct chunk as [|b chunk].
    { exists k, w. rewrite mret_unfold, app_nil_r. done. }
    destruct (update_existing (Fs.append (b :: chunk)) (w_fs w) p (File d)
                (Some (File (d ++ b :: chunk))) Hp Hfile eq_refl)
      as (root' & Hup & Hat).
    exists (S k), (set_fs root' w).
    rewrite bind_unfold. unfold f_write. rewrite Hlimit.
    unfold fs_update. rewrite Hup. by rewrite mret_unfold. }
  destruct (IH k1 w1 (d ++ chunk) Hlimit1 Hfile1) as (k' & w' & Hloop & Hfile').
  exists k', w'. rewrite (bind_Return _ _ _ _ _ Hw). split; [done|].
  by rewrite Hfile', concat_cons, app_assoc.
Qed.

(** X3. When the server answers with a status that is no error and the whole
    body arrives, the destination directory exists, the destination itself
    is no directory and the disk takes every write, the download succeeds and
    leaves at the destination a file whose bytes are the chunks of the body
    in order, whatever was there before. *)
Theorem download_file_success url dir name w code chunks :
  w_net w url = Response code chunks true →
  ¬ (400 ≤ code < 600) →
  Fs.isdir (w_fs w) dir = true →
  Fs.isdir (w_fs w) (dir ++ [name]) = false →
  w_write_limit w (dir ++ [name]) = None →
  ∃ w',
    download_file url (dir ++ [name]) w = (Return (dir ++ [name], true), w')
    ∧ read_file (w_fs w') (dir ++ [name]) = Some (concat chunks).
Proof.
  intros Hnet Hcode Hdir Hdest Hlimit.
  assert (dir ++ [name] ≠ []) as Hp by (by destruct dir).
  unfold Fs.isdir in Hdir.
  destruct (Fs.node_at (w_fs w) dir) as [[d|es]|] eqn:Hparent; [done| |done].
  assert (Fs.truncate (es !! name) = Return (Some (File []))) as Htrunc.
  { revert Hdest. unfold Fs.isdir. rewrite node_at_app, Hparent. simpl.
    by destruct (es !! name) as [[?|?]|]. }
  destruct (update_child _ _ _ name _ _ Hparent Htrunc) as [root1 Hup].
  destruct (update_at _ _ _ _ Hup) as (r & Hr & Hat).
  assert (Fs.node_at root1 (dir ++ [name]) = Some (File [])) as Hfile1.
  { assert (r = Some (File [])) as ->.
    { revert Hr. generalize (Some (w_fs w) ≫= λ n, Fs.node_at n (dir ++ [name])).
      intros [[?|?]|]; simpl; intros; by simplify_eq. }
    exact Hat. }
  destruct (write_chunks_content (dir ++ [name]) chunks 0%nat (set_fs root1 w) []
              Hp Hlimit Hfile1) as (k' & w' & Hloop & Hfile').
  exists w'. split.
  - unfold download_file, try_except.
    rewrite bind_unfold. unfold requests_get. rewrite Hnet.
    rewrite bind_unfold. unfold raise_for_status.
    rewrite decide_False by done. rewrite mret_unfold, bind_unfold.
    unfold open_wb, fs_update at 1. rewrite Hup.
    rewrite bind_unfold. unfold iter_content.
    rewrite bind_unfold, Hloop. by rewrite !mret_unfold.
  - unfold read_file. by rewrite Hfile'.
Qed.

Lemma download_file_success_witness :
  ∃ w',
    download_file "u" (base_path ++ ["new.parquet"]) (world_of base_disk server_up)
      = (Return (base_path ++ ["new.parquet"], true), w')
    ∧ read_file (w_fs w') (base_path ++ ["new.parquet"])
      = Some (concat [[Byte.x50]; []; [Byte.x41; Byte.x52]]).
Proof.
  apply (download_file_success "u" base_path "new.parquet"
           (world_of base_disk server_up) 200); try by vm_compute.
  lia.
Defined.

(** X4. When the server cannot be reached or answers with a 4xx or 5xx
    status, the download returns its destination with the flag false and
    nothing is left at the destination: a file that was there before the
    attempt is removed. *)
Theorem download_file_fetch_fails url p w :
  (w_net w url = Unreachable
   ∨ ∃ code chunks complete,
       w_net w url = Response code chunks complete ∧ 400 ≤ code < 600) →
  p ≠ [] →
  Fs.isdir (w_fs w) p = false →
  ∃ w',
    download_file url p w = (Return (p, false), w')
    ∧ Fs.exists_ (w_fs w') p = false.
Proof.
  intros Hnet Hp Hdir.
  destruct (download_file_returns url p w Hp Hdir) as (b & w' & Hrun & Hfalse & _).
  destruct b; [|by eauto].
  exfalso. unfold download_file, try_except in Hrun.
  rewrite bind_unfold in Hrun. unfold requests_get in Hrun.
  destruct Hnet as [Hnet|(code & chunks & complete & Hnet & Hcode)];
    rewrite Hnet in Hrun.
  - apply bind_Return_inv in Hrun as (? & ? & _ & Hrun).
    apply bind_Return_inv in Hrun as (? & ? & _ & Hrun).
    rewrite mret_unfold in Hrun. by simplify_eq.
  - rewrite bind_unfold in Hrun. unfold raise_for_status in Hrun.
    rewrite decide_True in Hrun by done. unfold raise in Hrun.
    apply bind_Return_inv in Hrun as (? & ? & _ & Hrun).
    apply bind_Return_inv in Hrun as (? & ? & _ & Hrun).
    rewrite mret_unfold in Hrun. by simplify_eq.
Qed.

(** A file of January 2023 is on disk; a new attempt at it, with the server
    down, removes it. *)
Lemma download_file_fetch_fails_witness :
  Fs.isfile january_disk (task_for "yellow" 2023 1).2 = true
  ∧ ∃ w',
      download_file (task_for "yellow" 2023 1).1 (task_for "yellow" 2023 1).2
        (world_of january_disk server_down)
      = (Return ((task_for "yellow" 2023 1).2, false), w')
      ∧ Fs.exists_ (w_fs w') (task_for "yellow" 2023 1).2 = false.
Proof.
  split; [by vm_compute|].
  apply (download_file_fetch_fails (task_for "yellow" 2023 1).1
           (task_for "yellow" 2023 1).2 (world_of january_disk server_down)).
  - by left.
  - done.
  - by vm_compute.
Defined.

(** * "Create if missing", in full *)

Lemma makedirs_entry o p n' q :
  Fs.makedirs o p = Return n' →
  entry_at (Some n') q =
    if decide (q `prefix_of` p) then Some None else entry_at o q.
Proof.
  revert o n' q. induction p as [|x p IH]; intros o n' q Hmk.
  - destruct o; [done|]. simpl in Hmk. simplify_eq.
    destruct q as [|y q].
    + by rewrite decide_True by done.
    + rewrite decide_False by (by intros ?%prefix_nil_inv).
      by rewrite entry_at_cons, lookup_empty.
  - simpl in Hmk.
    assert (∃ c es, Fs.makedirs (es !! x) p = Return c ∧ n' = Dir (<[x:=c]> es)
                    ∧ ∀ y q', entry_at o (y :: q') = entry_at (es !! y) q')
      as (c & es & Hc & -> & Hold).
    { destruct o as [[d|es]|]; [done| |].
      - destruct (Fs.makedirs (es !! x) p) as [c|] eqn:Hc; [|done].
        simplify_eq. exists c, es. split_and!; [done..|].
        intros. apply entry_at_cons.
      - destruct (Fs.makedirs None p) as [c|] eqn:Hc; [|done].
        simplify_eq. exists c, ∅. rewrite lookup_empty. split_and!; [done..|].
        intros. by rewrite lookup_empty. }
    destruct q as [|y q].
    + rewrite decide_True by apply prefix_nil. done.
    + rewrite entry_at_cons, Hold.
      destruct (decide (y = x)) as [->|Hne].
      * rewrite lookup_insert_eq. rewrite (IH _ _ q Hc).
        destruct (decide (q `prefix_of` p)) as [Hp|Hp].
        -- rewrite decide_True; [done|]. by apply prefix_cons.
        -- rewrite decide_False; [done|]. by intros ?%prefix_cons_inv_2.
      * rewrite lookup_insert_ne by done.
        rewrite decide_False; [done|]. by intros ?%prefix_cons_inv_1.
Qed.

Lemma makedirs_total o p :
  (∀ q, q `prefix_of` p → q ≠ p → Fs.kind_at o q ≠ Some Fs.IsFile) →
  Fs.kind_at o p = None →
  ∃ n', Fs.makedirs o p = Return n'.
Proof.
  revert o. induction p as [|x p IH]; intros o Hfiles Hmissing.
  - destruct o as [[d|es]|]; [done|done|]. simpl. eauto.
  - assert (∃ c, Fs.makedirs (o ≫= λ n, match n with
                                           | Dir es => es !! x
                                           | File _ => None
                                           end) p = Return c) as [c Hc].
    { apply IH.
      - intros q Hq Hne. specialize (Hfiles (x :: q)).
        destruct o as [[d|es]|]; simpl; [done| |done].
        rewrite <- kind_at_cons. apply Hfiles; [by apply prefix_cons|congruence].
      - destruct o as [[d|es]|]; simpl; [done| |done].
        by rewrite <- kind_at_cons. }
    destruct o as [[d|es]|]; simpl in *.
    + destruct (Hfiles []); [apply prefix_nil|done|done].
    + rewrite Hc. eauto.
    + rewrite Hc. eauto.
Qed.

Lemma makedirs_blocked o p q :
  q `prefix_of` p → q ≠ p → Fs.kind_at o q = Some Fs.IsFile →
  Fs.makedirs o p = Raise NotADirectoryError.
Proof.
  revert o q. induction p as [|x p IH]; intros o q Hpre Hne Hfile.
  - apply prefix_nil_inv in Hpre. by subst q.
  - destruct q as [|y q].
    + destruct o as [[d|es]|]; done.
    + assert (y = x) as -> by (by apply prefix_cons_inv_1 in Hpre).
      apply prefix_cons_inv_2 in Hpre.
      destruct o as [[d|es]|]; [done| |done].
      rewrite kind_at_cons in Hfile. simpl.
      rewrite (IH (es !! x) q); [done|done| |done]. congruence.
Qed.

(** X5. "Create if missing" returns whenever no proper ancestor of the path
    is a file.  It changes nothing of the world but the disk; afterwards the
    path exists; what was on the disk is still there, files with their bytes;
    what is new is the path and its missing ancestors, as directories, and
    nothing else; and a second call changes nothing. *)
Theorem create_directory_structure_creates p w :
  (∀ q, q `prefix_of` p → q ≠ p → Fs.isfile (w_fs w) q = false) →
  ∃ w',
    create_directory_structure p w = (Return tt, w')
    ∧ w' = set_fs (w_fs w') w
    ∧ Fs.exists_ (w_fs w') p = true
    ∧ (∀ q, entry_at (Some (w_fs w')) q =
            match entry_at (Some (w_fs w)) q with
            | Some e => Some e
            | None => if bool_decide (q `prefix_of` p) then Some None else None
            end)
    ∧ create_directory_structure p w' = (Return tt, w').
Proof.
  intros Hfiles. unfold create_directory_structure, os_path_exists, os_makedirs.
  rewrite bind_unfold. destruct (Fs.exists_ (w_fs w) p) eqn:Hex; simpl.
  - exists w. rewrite mret_unfold. split_and!; [done|by destruct w|done| |].
    + intros q. destruct (entry_at (Some (w_fs w)) q) as [e|] eqn:Hq; [done|].
      case_bool_decide as Hpre; [|done].
      apply exists_kind in Hex.
      destruct (kind_prefix _ _ _ Hex Hpre) as [->|Hd].
      * rewrite entry_at_kind, Hq in Hex. by destruct Hex.
      * rewrite entry_at_kind, Hq in Hd. done.
    + by rewrite bind_unfold, Hex.
  - destruct (makedirs_total (Some (w_fs w)) p) as [n' Hmk].
    { intros q Hpre Hne Hfile%isfile_kind. by rewrite Hfiles in Hfile. }
    { by apply not_exists_kind. }
    rewrite Hmk. exists (set_fs n' w).
    assert (Fs.exists_ n' p = true) as Hex'.
    { apply exists_kind. rewrite (makedirs_kind _ _ _ p Hmk).
      by rewrite decide_True. }
    split_and!; [done|by destruct w|done| |].
    + intros q. simpl. rewrite (makedirs_entry _ _ _ q Hmk).
      case_bool_decide as Hpre.
      * rewrite decide_True by done.
        destruct (makedirs_prefix _ _ _ _ Hmk Hpre) as [Hk|Hk];
          rewrite entry_at_kind in Hk;
          by destruct (entry_at (Some (w_fs w)) q) as [[?|]|].
      * rewrite decide_False by done.
        by destruct (entry_at (Some (w_fs w)) q).
    + rewrite bind_unfold. simpl. by rewrite Hex'.
Qed.

Lemma create_directory_structure_creates_witness :
  ∃ w',
    create_directory_structure ["data"; "extra"] (world_of january_disk server_up)
      = (Return tt, w')
    ∧ Fs.isdir (w_fs w') ["data"; "extra"] = true
    ∧ read_file (w_fs w') (task_for "yellow" 2023 1).2 = Some [].
Proof.
  destruct (create_directory_structure_creates ["data"; "extra"]
              (world_of january_disk server_up))
    as (w' & Hrun & _ & _ & Hentries & _).
  { intros q [k Hk] Hne.
    destruct q as [|a q]; [by vm_compute|].
    destruct q as [|b q]; [injection Hk as <-; by vm_compute|].
    destruct q as [|c q]; [|done].
    injection Hk as <- <-. by destruct Hne. }
  exists w'. split_and!; [done| |].
  - apply isdir_kind. rewrite entry_at_kind, Hentries. by vm_compute.
  - apply read_file_entry. rewrite Hentries. by vm_compute.
Defined.

(** X6. "Create if missing" raises when a proper ancestor of the path is a
    file: the exception is [NotADirectoryError], and the world is as it
    was. *)
Theorem create_directory_structure_blocked p w q :
  q `prefix_of` p → q ≠ p → Fs.isfile (w_fs w) q = true →
  create_directory_structure p w = (Raise NotADirectoryError, w).
Proof.
  intros Hpre Hne Hfile%isfile_kind.
  unfold create_directory_structure, os_path_exists, os_makedirs.
  rewrite bind_unfold.
  assert (Fs.exists_ (w_fs w) p = false) as ->.
  { apply not_true_is_false. intros Hex%exists_kind.
    destruct (kind_prefix _ _ _ Hex Hpre) as [?|Hd]; [done|congruence]. }
  simpl. by rewrite (makedirs_blocked _ _ q).
Qed.

Lemma create_directory_structure_blocked_witness :
  create_directory_structure
    ["data"; "taxi_data"; "2023"; "01"; "yellow_tripdata_2023-01.parquet"; "sub"]
    (world_of january_disk server_up)
  = (Raise NotADirectoryError, world_of january_disk server_up).
Proof.
  apply (create_directory_structure_blocked _ _ (task_for "yellow" 2023 1).2).
  - by exists ["sub"].
  - done.
  - by vm_compute.
Defined.

(** * Names, read back *)

Lemma append_cons a s t : String a s +:+ t = String a (s +:+ t).
Proof. reflexivity. Qed.

Lemma append_empty_r s : s +:+ EmptyString = s.
Proof. induction s as [|a s IH]; [done|]. by rewrite append_cons, IH. Qed.

Lemma rev_app_rev_app s1 s2 s3 :
  String.rev_app (String.rev_app s1 s2) s3 = String.rev_app s2 (s1 +:+ s3).
Proof.
  revert s2. induction s1 as [|a s1 IH]; intros s2; [done|].
  simpl. by rewrite IH.
Qed.

Lemma rev_rev s : String.rev (String.rev s) = s.
Proof.
  unfold String.rev. rewrite rev_app_rev_app. simpl. apply append_empty_r.
Qed.

Lemma rev_app_append s t : String.rev_app s t = String.rev s +:+ t.
Proof.
  unfold String.rev. revert t. induction s as [|a s IH]; intros t; [done|].
  simpl. rewrite (IH (String a t)), (IH (String a EmptyString)).
  generalize (String.rev_app s EmptyString). intros u.
  induction u as [|b u IHu]; [done|]. by rewrite !append_cons, IHu.
Qed.

Lemma rev_append s t : String.rev (s +:+ t) = String.rev t +:+ String.rev s.
Proof.
  assert (∀ acc, String.rev_app (s +:+ t) acc
                 = String.rev_app t (String.rev_app s acc)) as Hgen.
  { induction s as [|a s IH]; intros acc; [done|].
    rewrite append_cons. simpl. apply IH. }
  unfold String.rev at 1. by rewrite Hgen, rev_app_append.
Qed.

Lemma startswith_empty s : Py.startswith s EmptyString = true.
Proof. by destruct s. Qed.

Lemma startswith_append s t pre :
  Py.startswith s pre = true → Py.startswith (s +:+ t) pre = true.
Proof.
  revert s. induction pre as [|b pre IH]; intros s;
    [intros _; apply startswith_empty|].
  destruct s as [|a s]; [done|]. rewrite append_cons. simpl.
  destruct (decide (a = b)); [apply IH|done].
Qed.

Lemma startswith_refl s : Py.startswith s s = true.
Proof. induction s as [|a s IH]; [done|]. simpl. by rewrite decide_True. Qed.

Lemma endswith_suffix s suffix : Py.endswith (s +:+ suffix) suffix = true.
Proof.
  unfold Py.endswith. rewrite rev_append.
  apply startswith_append, startswith_refl.
Qed.

Lemma endswith_append s t suffix :
  Py.endswith t suffix = true → Py.endswith (s +:+ t) suffix = true.
Proof.
  unfold Py.endswith. rewrite rev_append. apply startswith_append.
Qed.

Lemma file_name_endswith data_type year month :
  Py.endswith (file_name data_type year month) ".parquet" = true.
Proof.
  unfold file_name. do 4 apply endswith_append. apply endswith_suffix.
Qed.

(** The category is read back from a file name when it has no underscore of
    its own. *)
Lemma split_prefix data_type rest :
  str_contains "_" data_type = false →
  hd EmptyString (Py.split "_" (data_type +:+ String "_" rest)) = data_type.
Proof.
  induction data_type as [|a s IH]; intros Hno; [done|].
  simpl in Hno. rewrite append_cons. simpl.
  destruct (decide (a = "_"%char)); [done|].
  specialize (IH Hno).
  destruct (Py.split "_" (s +:+ String "_" rest)) as [|h t]; simpl in *;
    by subst.
Qed.

Lemma category_of_file_name data_type year month :
  str_contains "_" data_type = false →
  category_of (file_name data_type year month) = data_type.
Proof. intros Hno. unfold category_of, file_name. by apply split_prefix. Qed.

(** No category that is read off a file name has an underscore. *)
Lemma category_of_no_underscore file :
  str_contains "_" (category_of file) = false.
Proof.
  unfold category_of. induction file as [|a s IH]; [done|]. simpl.
  destruct (decide (a = "_"%char)); [done|].
  destruct (Py.split "_" s) as [|h t]; simpl in *.
  - by rewrite decide_False.
  - by rewrite decide_False.
Qed.

(** ** [int(str(n))] is [n] *)

Lemma str_all_rev_app test s t :
  str_all test s = true → str_all test t = true →
  str_all test (String.rev_app s t) = true.
Proof.
  revert t. induction s as [|a s IH]; intros t Hs Ht; [done|].
  simpl in Hs. apply andb_true_iff in Hs as [Ha Hs].
  simpl. apply IH; [done|]. simpl. by rewrite Ha.
Qed.

Lemma lstrip_no_space s :
  str_all (λ a, negb (Py.is_space a)) s = true → Py.lstrip s = s.
Proof.
  destruct s as [|a s]; [done|]. simpl. intros [Ha _]%andb_true_iff.
  by destruct (Py.is_space a).
Qed.

Lemma strip_no_space s :
  str_all (λ a, negb (Py.is_space a)) s = true → Py.strip s = s.
Proof.
  intros Hs. unfold Py.strip.
  rewrite (lstrip_no_space s Hs), lstrip_no_space; [apply rev_rev|].
  by apply str_all_rev_app.
Qed.

Lemma pretty_N_char_digit d :
  (d < 10)%N → Ascii.is_nat (pretty_N_char d) = Some (N.to_nat d).
Proof.
  intros Hd.
  assert (d = 0 ∨ d = 1 ∨ d = 2 ∨ d = 3 ∨ d = 4 ∨ d = 5 ∨ d = 6 ∨ d = 7
          ∨ d = 8 ∨ d = 9)%N as Hcases by lia.
  destruct_or!; by subst d.
Qed.

Lemma pretty_N_go_no_space x s :
  str_all (λ a, negb (Py.is_space a)) s = true →
  str_all (λ a, negb (Py.is_space a)) (pretty_N_go x s) = true.
Proof.
  revert s. induction (N.lt_wf_0 x) as [x _ IH]; intros s Hs.
  destruct (N.eq_0_gt_0_cases x) as [->|Hx]; [by rewrite pretty_N_go_0|].
  rewrite pretty_N_go_step by done. apply IH; [apply N.div_lt; [done|lia]|].
  simpl. rewrite Hs, andb_true_r.
  assert (x `mod` 10 < 10)%N as Hd by (by apply N.mod_lt).
  revert Hd. generalize (x `mod` 10)%N. intros d Hd.
  assert (d = 0 ∨ d = 1 ∨ d = 2 ∨ d = 3 ∨ d = 4 ∨ d = 5 ∨ d = 6 ∨ d = 7
          ∨ d = 8 ∨ d = 9)%N as Hcases by lia.
  destruct_or!; by subst d.
Qed.

(** Reading the digits that [str] wrote gives the number back. *)
Lemma digits_pretty_N_go x :
  ∃ k : Z, 0 ≤ k ∧ ∀ acc after s,
    Py.digits acc after (pretty_N_go x s)
    = Py.digits (acc * 10 ^ k + Z.of_N x) (after || bool_decide (0 < x)%N) s.
Proof.
  induction (N.lt_wf_0 x) as [x _ IH].
  destruct (N.eq_0_gt_0_cases x) as [->|Hx].
  { exists 0. split; [done|]. intros acc after s. rewrite pretty_N_go_0.
    rewrite orb_false_r. f_equal. lia. }
  destruct (IH (x `div` 10)%N) as (k & Hk & Hdigits); [apply N.div_lt; [done|lia]|].
  exists (k + 1). split; [lia|]. intros acc after s.
  rewrite pretty_N_go_step by done. rewrite Hdigits. simpl.
  assert (x `mod` 10 < 10)%N as Hd by (by apply N.mod_lt).
  rewrite (pretty_N_char_digit _ Hd).
  rewrite (bool_decide_eq_true_2 (0 < x)%N) by done. rewrite orb_true_r.
  f_equal. rewrite Z.pow_add_r by lia. rewrite N_nat_Z.
  pose proof (N.div_mod x 10 ltac:(done)) as Hdm.
  apply (f_equal Z.of_N) in Hdm. rewrite N2Z.inj_add, N2Z.inj_mul in Hdm.
  change (Z.of_N 10) with 10 in Hdm. change (10 ^ 1) with 10.
  generalize dependent (Z.of_N (x `div` 10)). generalize (Z.of_N (x `mod` 10)).
  generalize (10 ^ k). intros. lia.
Qed.

Lemma digits_str_N x :
  (0 < x)%N → Py.digits 0 false (pretty_N_go x EmptyString) = Some (Z.of_N x).
Proof.
  intros Hx. destruct (digits_pretty_N_go x) as (k & _ & ->).
  rewrite bool_decide_eq_true_2 by done. simpl. done.
Qed.

Lemma pretty_N_go_digit_head x s :
  (0 < x)%N → ∃ d r, (d < 10)%N ∧ pretty_N_go x s = String (pretty_N_char d) r.
Proof.
  revert s. induction (N.lt_wf_0 x) as [x _ IH]; intros s Hx.
  rewrite pretty_N_go_step by done.
  destruct (N.eq_0_gt_0_cases (x `div` 10)) as [H0|Hpos].
  - rewrite H0, pretty_N_go_0. eexists _, _. split; [|done]. by apply N.mod_lt.
  - apply IH; [|done]. apply N.div_lt; [done|lia].
Qed.

Lemma int_str (n : Z) : Py.int (Py.str n) = Some n.
Proof.
  unfold Py.str, pretty, pretty_Z. destruct n as [|p|p]; [done| |].
  - unfold pretty, pretty_positive, pretty, pretty_N.
    rewrite decide_False by done. unfold Py.int.
    rewrite strip_no_space by (by apply pretty_N_go_no_space).
    destruct (pretty_N_go_digit_head (N.pos p) EmptyString) as (d & r & Hd & Hhead);
      [done|].
    pose proof (digits_str_N (N.pos p) eq_refl) as Hdigits.
    rewrite Hhead in *.
    assert (d = 0 ∨ d = 1 ∨ d = 2 ∨ d = 3 ∨ d = 4 ∨ d = 5 ∨ d = 6 ∨ d = 7
            ∨ d = 8 ∨ d = 9)%N as Hcases by lia.
    destruct_or!; subst d; exact Hdigits.
  - unfold pretty, pretty_positive, pretty, pretty_N.
    rewrite decide_False by done. unfold Py.int.
    rewrite strip_no_space.
    + rewrite append_cons. simpl.
      change (EmptyString +:+ pretty_N_go (N.pos p) EmptyString)
        with (pretty_N_go (N.pos p) EmptyString).
      by rewrite (digits_str_N (N.pos p)).
    + rewrite append_cons. simpl. by apply pretty_N_go_no_space.
Qed.

Lemma int_month_str (month : Z) :
  1 ≤ month ≤ 12 → Py.int (month_str month) = Some month.
Proof.
  intros Hm.
  assert (month = 1 ∨ month = 2 ∨ month = 3 ∨ month = 4 ∨ month = 5 ∨ month = 6
          ∨ month = 7 ∨ month = 8 ∨ month = 9 ∨ month = 10 ∨ month = 11
          ∨ month = 12) as Hcases by lia.
  destruct_or!; by subst month.
Qed.

(** * The scanner, case by case *)

(** What the scanner does depends on what sits at the base path, and it
    never changes the world. *)
Lemma get_existing_downloads_cases base w :
  match Fs.kind_at (Some (w_fs w)) base with
  | None => get_existing_downloads base w = (Return ∅, w)
  | Some Fs.IsFile => get_existing_downloads base w = (Raise NotADirectoryError, w)
  | Some Fs.IsDir => get_existing_downloads base w = (Return (scan (w_fs w) base), w)
  end.
Proof.
  destruct (Fs.kind_at (Some (w_fs w)) base) as [[|]|] eqn:Hk.
  - unfold get_existing_downloads. rewrite bind_unfold.
    unfold os_path_exists at 1, os_listdir, Fs.exists_, Fs.listdir.
    revert Hk. unfold Fs.kind_at.
    destruct (Fs.node_at (w_fs w) base) as [[d|es]|] eqn:Hn; [|done..].
    intros _. simpl. by rewrite bind_unfold, Hn.
  - apply get_existing_downloads_scan. apply not_true_is_false.
    intros Hf%isfile_kind. congruence.
  - rewrite get_existing_downloads_scan.
    + do 2 f_equal. unfold scan, names, Fs.listdir.
      revert Hk. unfold Fs.kind_at.
      by destruct (Fs.node_at (w_fs w) base).
    + apply not_true_is_false. intros Hf%isfile_kind. congruence.
Qed.

(** X7. The scanner never changes the world, whether it returns or raises.
    On a base path that is missing it returns the empty set; on a base path
    that is a file it raises [NotADirectoryError] (the existence test passes
    and the listing fails); on a directory it returns a set. *)
Theorem get_existing_downloads_outcomes base w r w' :
  get_existing_downloads base w = (r, w') →
  w' = w
  ∧ (Fs.exists_ (w_fs w) base = false → r = Return ∅)
  ∧ (Fs.isfile (w_fs w) base = true → r = Raise NotADirectoryError)
  ∧ (Fs.isdir (w_fs w) base = true → ∃ existing, r = Return existing).
Proof.
  intros Hrun. pose proof (get_existing_downloads_cases base w) as Hcases.
  rewrite Hrun in Hcases. split_and!.
  - revert Hcases.
    destruct (Fs.kind_at (Some (w_fs w)) base) as [[|]|]; by intros [= _ ->].
  - intros Hk%not_exists_kind. rewrite Hk in Hcases. by simplify_eq.
  - intros Hk%isfile_kind. rewrite Hk in Hcases. by simplify_eq.
  - intros Hk%isdir_kind. rewrite Hk in Hcases. eexists. by simplify_eq.
Qed.

Lemma get_existing_downloads_outcomes_witness :
  world_of january_disk server_up = world_of january_disk server_up
  ∧ (Fs.exists_ january_disk (task_for "yellow" 2023 1).2 = false →
     Raise NotADirectoryError = Return (∅ : gset record))
  ∧ (Fs.isfile january_disk (task_for "yellow" 2023 1).2 = true →
     Raise NotADirectoryError = Raise (A := gset record) NotADirectoryError)
  ∧ (Fs.isdir january_disk (task_for "yellow" 2023 1).2 = true →
     ∃ existing : gset record, Raise NotADirectoryError = Return existing).
Proof.
  apply (get_existing_downloads_outcomes (task_for "yellow" 2023 1).2
           (world_of january_disk server_up)).
  by vm_compute.
Defined.

(** X8. No record of the scanner has a category with an underscore in it:
    the category is the file name up to its first underscore.  So a category
    whose own name has an underscore is never found on disk, whatever the
    disk holds. *)
Theorem scanner_categories base w existing w' data_type year month :
  get_existing_downloads base w = (Return existing, w') →
  str_contains "_" data_type = true →
  (data_type, year, month) ∉ existing.
Proof.
  intros Hrun Hus Hin.
  pose proof (get_existing_downloads_cases base w) as Hcases.
  destruct (Fs.kind_at (Some (w_fs w)) base) as [[|]|] eqn:Hk.
  - congruence.
  - rewrite Hrun in Hcases. simplify_eq.
    apply elem_of_scan in Hin as (yd & md & file & _ & _ & _ & _ & _ & _ & Hcat).
    + simpl in Hcat. subst data_type.
      by rewrite category_of_no_underscore in Hus.
    + apply not_true_is_false. intros Hf%isfile_kind. congruence.
  - rewrite Hrun in Hcases. by simplify_eq.
Qed.

Lemma scanner_categories_witness :
  ("yellow_v2", 2023, 1) ∉ scan underscore_disk base_path.
Proof.
  apply (scanner_categories base_path (world_of underscore_disk server_up)
           (scan underscore_disk base_path) (world_of underscore_disk server_up)).
  - by vm_compute.
  - by vm_compute.
Defined.

(** X9. What the planner names, the scanner reads back.  When something
    exists at the destination the planner gives to (category, year, month),
    for a category without underscore and a month from 1 to 12, the scanner
    returns a set that holds (category, year, month). *)
Theorem destination_recorded data_type year month w :
  str_contains "_" data_type = false →
  1 ≤ month ≤ 12 →
  Fs.exists_ (w_fs w) (task_for data_type year month).2 = true →
  ∃ existing,
    get_existing_downloads base_path w = (Return existing, w)
    ∧ (data_type, year, month) ∈ existing.
Proof.
  intros Hus Hm Hex.
  assert (is_Some (Fs.kind_at (Some (w_fs w)) (task_for data_type year month).2))
    as Hk by (by apply exists_kind).
  assert (∀ q, q `prefix_of` (task_for data_type year month).2 →
               q ≠ (task_for data_type year month).2 →
               Fs.isdir (w_fs w) q = true) as Hdirs.
  { intros q Hq Hne. apply isdir_kind.
    by destruct (kind_prefix _ _ q Hk Hq). }
  assert (Fs.isdir (w_fs w) base_path = true) as Hbase.
  { apply Hdirs; [|done]. by eexists [_; _; _]. }
  assert (Fs.isfile (w_fs w) base_path = false) as Hnofile.
  { apply not_true_is_false. intros Hf%isfile_kind.
    apply isdir_kind in Hbase. congruence. }
  exists (scan (w_fs w) base_path). split.
  - by apply get_existing_downloads_scan.
  - apply elem_of_scan; [done|].
    exists (Py.str year), (month_str month), (file_name data_type year month).
    split_and!.
    + apply Hdirs; [|done]. by eexists [_; _].
    + apply int_str.
    + apply Hdirs; [|done]. by eexists [_].
    + by apply int_month_str.
    + exact Hex.
    + apply file_name_endswith.
    + simpl. by rewrite category_of_file_name.
Qed.

Lemma destination_recorded_witness :
  ∃ existing,
    get_existing_downloads base_path (world_of january_disk server_up)
      = (Return existing, world_of january_disk server_up)
    ∧ ("yellow", 2023, 1) ∈ existing.
Proof.
  apply (destination_recorded "yellow" 2023 1 (world_of january_disk server_up));
    [done|lia|by vm_compute].
Defined.

(** * The planner's list, in full *)

Lemma StronglySorted_sublist {A} (R : relation A) (l k : list A) :
  l `sublist_of` k → StronglySorted R k → StronglySorted R l.
Proof.
  induction 1 as [|x l k Hsub IH|x l k Hsub IH]; intros Hk.
  - constructor.
  - apply StronglySorted_cons in Hk as [Hall Hk].
    apply StronglySorted_cons. split; [|by apply IH].
    rewrite Forall_forall in Hall. apply Forall_forall.
    intros y Hy. apply Hall. by eapply elem_of_sublist.
  - apply StronglySorted_cons in Hk as [_ Hk]. by apply IH.
Qed.

Lemma StronglySorted_seqZ m n : StronglySorted Z.lt (seqZ m n).
Proof.
  unfold seqZ. apply (StronglySorted_fmap _ lt); [intros; lia|].
  generalize 0%nat. induction (Z.to_nat n) as [|k IH]; intros j; simpl;
    constructor; [apply IH|].
  apply Forall_forall. intros x Hx%elem_of_seq. lia.
Qed.

Lemma bind_sorted (years : list Z) (months : Z → list Z) :
  StronglySorted Z.lt years →
  (∀ year, StronglySorted Z.lt (months year)) →
  StronglySorted earlier (year ← years; (λ month, (year, month)) <$> months year).
Proof.
  intros Hyears Hmonths.
  induction Hyears as [|year years Hyears IH Hall]; csimpl; [constructor|].
  apply StronglySorted_app. split_and!.
  - intros a b (m & -> & _)%list_elem_of_fmap (year' & Hb & Hy)%list_elem_of_bind.
    apply list_elem_of_fmap in Hb as (m' & -> & _).
    rewrite Forall_forall in Hall. left. simpl. by apply Hall.
  - apply (StronglySorted_fmap _ Z.lt); [|done]. intros m m' Hlt. by right.
  - exact IH.
Qed.

Lemma planned_sorted data_type existing now start_year end_year :
  StronglySorted earlier (planned data_type existing now start_year end_year).
Proof.
  unfold planned. apply bind_sorted.
  - apply StronglySorted_seqZ.
  - intros year. unfold planned_months.
    apply (StronglySorted_sublist _ _ (range 1 13)); [apply sublist_filter|].
    apply StronglySorted_seqZ.
Qed.

(** X10. Under a clock that stands still the planner's list is complete and
    in calendar order: it is one task per (year, month), the (year, month)
    strictly increasing, and a (year, month) has its task exactly when the
    year lies between the start year and the smaller of the end year and the
    current year, the month between 1 and 12, the month is not a later month
    of the current year, and its record is not in the existing set. *)
Theorem planner_calendar_order start_year end_year data_type existing now w ts w' :
  clock_at now w →
  prepare_download_tasks start_year end_year data_type existing w = (Return ts, w') →
  ∃ pairs,
    ts = task_of data_type <$> pairs
    ∧ StronglySorted earlier pairs
    ∧ ∀ year month,
        (year, month) ∈ pairs ↔
        start_year ≤ year ≤ Z.min end_year (dt_year now) ∧ 1 ≤ month ≤ 12 ∧
        ¬ (year = dt_year now ∧ month > dt_month now) ∧
        (data_type, year, month) ∉ existing.
Proof.
  intros Hclock Hrun.
  apply (prepare_download_tasks_Return _ _ _ _ now) in Hrun as [_ ->]; [|done].
  exists (planned data_type existing now start_year end_year). split_and!.
  - done.
  - apply planned_sorted.
  - intros year month. apply elem_of_planned.
Qed.

Lemma planner_calendar_order_witness :
  ∃ pairs,
    [task_for "yellow" 2023 2; task_for "yellow" 2023 3] = task_of "yellow" <$> pairs
    ∧ StronglySorted earlier pairs
    ∧ ∀ year month,
        (year, month) ∈ pairs ↔
        2023 ≤ year ≤ Z.min 2023 (dt_year march_2023) ∧ 1 ≤ month ≤ 12 ∧
        ¬ (year = dt_year march_2023 ∧ month > dt_month march_2023) ∧
        ("yellow", year, month) ∉ scan january_disk base_path.
Proof.
  assert (∃ w', prepare_download_tasks 2023 2023 "yellow" (scan january_disk base_path)
                  (world_of january_disk server_up)
                = (Return [task_for "yellow" 2023 2; task_for "yellow" 2023 3], w'))
    as [w' Hrun] by (eexists; vm_compute; reflexivity).
  exact (planner_calendar_order 2023 2023 "yellow" (scan january_disk base_path)
           march_2023 (world_of january_disk server_up) _ w'
           (march_2023_stands_still _ _) Hrun).
Defined.

(** * The planner and the files on disk *)

#[global] Instance grown_preorder : PreOrder grown.
Proof.
  split.
  - intros root q. destruct (entry_at (Some root) q); auto.
  - intros r1 r2 r3 H12 H23 q. specialize (H12 q). specialize (H23 q).
    destruct (entry_at (Some r1) q) as [e|].
    + by rewrite H12 in H23.
    + destruct H12 as [H12|H12]; rewrite H12 in H23; auto.
Qed.

#[global] Instance silent_growth_preorder : PreOrder silent_growth.
Proof.
  split.
  - intros w. split; reflexivity.
  - intros w1 w2 w3 [Hg12 Ho12] [Hg23 Ho23]. split; [by etrans|congruence].
Qed.

#[global] Instance disk_grown_preorder : PreOrder disk_grown.
Proof.
  split.
  - intros w. unfold disk_grown. reflexivity.
  - intros w1 w2 w3. unfold disk_grown. apply transitivity.
Qed.

Lemma always_impl {A} (R R' : world → world → Prop) (m : M A) :
  (∀ w w', R w w' → R' w w') → always R m → always R' m.
Proof. intros Himpl Hm w r w' Hrun. by eapply Himpl, Hm. Qed.

Lemma grown_read_file root root' q :
  grown root root' → read_file root' q = read_file root q.
Proof.
  intros Hg. specialize (Hg q). revert Hg. unfold entry_at, read_file. simpl.
  destruct (Fs.node_at root q) as [[d|es]|], (Fs.node_at root' q) as [[d'|es']|];
    simpl; intros; destruct_or?; by simplify_eq.
Qed.

Lemma grown_isdir root root' q :
  grown root root' → Fs.isdir root q = true → Fs.isdir root' q = true.
Proof.
  intros Hg. specialize (Hg q). revert Hg. unfold entry_at, Fs.isdir. simpl.
  destruct (Fs.node_at root q) as [[d|es]|], (Fs.node_at root' q) as [[d'|es']|];
    simpl; intros; destruct_or?; by simplify_eq.
Qed.

Lemma create_directory_structure_grows p :
  always silent_growth (create_directory_structure p).
Proof.
  intros w r w'. unfold create_directory_structure, os_path_exists, os_makedirs.
  rewrite bind_unfold. destruct (Fs.exists_ (w_fs w) p) eqn:Hex; simpl.
  { rewrite mret_unfold. intros [= _ <-]. reflexivity. }
  destruct (Fs.makedirs (Some (w_fs w)) p) as [n'|e] eqn:Hmk; intros [= _ <-];
    [|reflexivity].
  split; [|done]. intros q. simpl. rewrite (makedirs_entry _ _ _ q Hmk).
  destruct (decide (q `prefix_of` p)) as [Hpre|Hpre].
  - destruct (makedirs_prefix _ _ _ _ Hmk Hpre) as [Hk|Hk];
      rewrite entry_at_kind in Hk;
      destruct (entry_at (Some (w_fs w)) q) as [[?|]|]; try done; auto.
  - destruct (entry_at (Some (w_fs w)) q); auto.
Qed.

Lemma datetime_now_grows : always silent_growth datetime_now.
Proof. intros w r w'. unfold datetime_now. intros [= _ <-]. split; reflexivity. Qed.

Lemma plan_month_grows data_type existing current_year year month ts :
  always silent_growth (plan_month data_type existing current_year year month ts).
Proof.
  unfold plan_month. apply always_bind; [apply _| |].
  { destruct (decide (year = current_year)); [|apply always_mret, _].
    apply always_bind; [apply _|apply datetime_now_grows|].
    intros. apply always_mret, _. }
  intros [|]; [apply always_mret, _|].
  destruct (decide ((data_type, year, month) ∈ existing)); [apply always_mret, _|].
  apply always_bind; [apply _|apply create_directory_structure_grows|].
  intros. apply always_mret, _.
Qed.

Lemma prepare_download_tasks_grows start_year end_year data_type existing :
  always silent_growth (prepare_download_tasks start_year end_year data_type existing).
Proof.
  unfold prepare_download_tasks.
  apply always_bind; [apply _|apply datetime_now_grows|].
  intros now. apply always_for_in; [apply _|]. intros year ts. unfold plan_year.
  apply always_bind; [apply _|apply create_directory_structure_grows|].
  intros []. apply always_for_in; [apply _|]. intros month ts'.
  apply plan_month_grows.
Qed.

(** X11. Whatever the planner does, returning its list or raising half way,
    it prints nothing and it leaves every file on disk as it was: a path holds
    a file afterwards exactly if it did before, with the same bytes, and a
    directory that was there is still there.  All the planner adds is
    directories. *)
Theorem planner_keeps_files start_year end_year data_type existing w r w' :
  prepare_download_tasks start_year end_year data_type existing w = (r, w') →
  w_stdout w' = w_stdout w
  ∧ (∀ q, read_file (w_fs w') q = read_file (w_fs w) q)
  ∧ (∀ q, Fs.isdir (w_fs w) q = true → Fs.isdir (w_fs w') q = true).
Proof.
  intros [Hg Hout]%prepare_download_tasks_grows. split_and!; [done| |].
  - intros q. by apply grown_read_file.
  - intros q. by apply grown_isdir.
Qed.

Lemma planner_keeps_files_witness :
  ∃ w',
    (prepare_download_tasks 2023 2023 "yellow" ∅ (world_of january_disk server_up)).2
      = w'
    ∧ w_stdout w' = []
    ∧ (∀ q, read_file (w_fs w') q = read_file january_disk q)
    ∧ (∀ q, Fs.isdir january_disk q = true → Fs.isdir (w_fs w') q = true).
Proof.
  eexists. split; [reflexivity|].
  apply (planner_keeps_files 2023 2023 "yellow" ∅ (world_of january_disk server_up)
           (prepare_download_tasks 2023 2023 "yellow" ∅
              (world_of january_disk server_up)).1).
  by destruct (prepare_download_tasks 2023 2023 "yellow" ∅
                 (world_of january_disk server_up)).
Defined.

(** X12. The planner returns when the base path is a directory and no file
    stands where a year directory belongs. *)
Theorem planner_returns start_year end_year data_type existing w :
  Fs.isdir (w_fs w) base_path = true →
  (∀ year, Fs.isfile (w_fs w) (year_path year) = false) →
  ∃ ts w', prepare_download_tasks start_year end_year data_type existing w
           = (Return ts, w').
Proof. apply prepare_download_tasks_returns. Qed.

Lemma planner_returns_witness :
  ∃ ts w', prepare_download_tasks 2023 2023 "yellow" ∅ (world_of january_disk server_up)
           = (Return ts, w').
Proof.
  apply (planner_returns 2023 2023 "yellow" ∅ (world_of january_disk server_up)).
  - by vm_compute.
  - intros year. unfold year_path, os_path_join, Fs.isfile. simpl.
    unfold january_disk. simpl.
    repeat (rewrite ?lookup_singleton_eq; simpl).
    destruct (decide (Py.str year = "2023")) as [->|Hne].
    + by rewrite lookup_singleton_eq.
    + by rewrite lookup_singleton_ne.
Defined.
